(** * Hyperparameter sweeps of the subscription notebooks

    The notebooks tune three tree ensembles with a hand-written loop over
    [ParameterGrid(...)]: a bagged forest, a boosted forest and a random
    forest.  Each loop configures one estimator object, fits it on the
    training partition, reads a score and keeps a best-so-far pair in
    notebook globals.  A fourth cell writes the predictions of the XGBoost
    model to a CSV file.

    This file embeds those cells: Python floats are IEEE-754 values
    ([spec_float]) compared with the IEEE order, the notebook kernel is a
    name space from variable names to values, a cell is a state-and-exception
    computation over the kernel, and scikit-learn is an interface whose
    operations are total functions on an opaque estimator state. *)

From Stdlib Require Import ZArith List Permutation.
From Stdlib Require Import Floats.SpecFloat.
From stdpp Require Import gmap strings list sorting.

Local Open Scope Z_scope.

(** ** Python floats *)

Module PyFloat.

(** [a > b] on Python floats: false as soon as one side is NaN. *)
Definition gt (a b : spec_float) : bool := SFltb b a.

(** [a >= b]. *)
Definition ge (a b : spec_float) : bool := SFleb b a.

(** A binary64 value: 53 bits of precision, exponents below 1024. *)
Definition is_binary64 (x : spec_float) : bool := valid_binary 53 1024 x.

(** The literal [0.5] = 2^52 * 2^-53. *)
Definition f0_5 : spec_float := S754_finite false 4503599627370496 (-53).

(** Nearest binary64 values of the decimal literals used in the examples. *)
Definition f0_001 : spec_float := S754_finite false 4611686018427388 (-62).
Definition f0_01 : spec_float := S754_finite false 5764607523034235 (-59).
Definition f0_1 : spec_float := S754_finite false 7205759403792794 (-56).
Definition f0_3 : spec_float := S754_finite false 5404319552844595 (-54).
Definition f0_7 : spec_float := S754_finite false 6305039478318694 (-53).
Definition f0_8 : spec_float := S754_finite false 7205759403792794 (-53).
Definition f0_9 : spec_float := S754_finite false 8106479329266893 (-53).
Definition f1_0 : spec_float := S754_finite false 4503599627370496 (-52).

End PyFloat.

(** Equality of floats as data (not the IEEE comparison) is decidable. *)
#[global] Instance spec_float_eq_dec : EqDecision spec_float.
Proof. solve_decision. Defined.

(** ** Values and the scikit-learn interface *)

(** Values of keyword arguments and of hyperparameter dictionaries. *)
Inductive pyval :=
  | PInt (n : Z)
  | PFloat (x : spec_float)
  | PStr (s : string)
  | PBool (b : bool)
  | PNone.

#[global] Instance pyval_eq_dec : EqDecision pyval.
Proof. solve_decision. Defined.

(** A [dict] with string keys: one element of a [ParameterGrid], or the
    keyword arguments of a constructor. *)
Abbreviation kwargs := (gmap string pyval).

(** The partitions the notebook loads: [(X_train, y_train)],
    [(X_valid, y_valid)], [(X_test, y_test)] and their concatenation
    [(X, y)]. *)
Inductive dataset := XY_train | XY_valid | XY_test | XY_all.

Inductive estimator_class := RandomForestClassifier | GradientBoostingClassifier.

#[global] Instance dataset_eq_dec : EqDecision dataset.
Proof. solve_decision. Defined.

#[global] Instance estimator_class_eq_dec : EqDecision estimator_class.
Proof. solve_decision. Defined.

(** What the cells use of scikit-learn.  The library is not part of the
    repository: its operations are taken as total functions of the estimator
    object's state (every estimator is built with [random_state=1] and
    [warm_start=False]); an exception raised inside the library aborts the
    cell and is outside this model. *)
Class Sklearn := {
  Est : Type;
  construct : estimator_class → kwargs → Est;
  set_params : kwargs → Est → Est;
  fit : dataset → Est → Est;
  oob_score_ : Est → spec_float;
  score : dataset → Est → spec_float
}.

(** ** The notebook kernel *)

Section Kernel.
Context {sk : Sklearn}.

(** What a notebook global can be bound to. *)
Inductive value :=
  | VFloat (x : spec_float)
  | VDict (g : kwargs)
  | VEst (e : Est).

(** Library operations, in the order they were performed; a read of a
    score records the value it returned. *)
Inductive call :=
  | Construct (c : estimator_class) (kw : kwargs)
  | SetParams (obj : string) (g : kwargs)
  | Fit (obj : string) (d : dataset)
  | GetOob (obj : string) (ret : spec_float)
  | Score (obj : string) (d : dataset) (ret : spec_float).

(** One [print]: the text before the value, and the value. *)
Inductive printed := Print_ (label : string) (v : value).

Record kernel := Kernel {
  ns : gmap string value;
  calls : list call;
  stdout : list printed
}.

Inductive exn :=
  | NameError (name : string)
  | AttributeError (attr : string)
  | TypeError.

Inductive outcome (A : Type) :=
  | Done (a : A)
  | Raise (e : exn).
Global Arguments Done {A} a.
Global Arguments Raise {A} e.

(** Values, calls, printed lines and outcomes can be compared when
    estimator states can. *)
Global Instance value_eq_dec `{EqDecision Est} : EqDecision value.
Proof. solve_decision. Defined.

Global Instance call_eq_dec : EqDecision call.
Proof. solve_decision. Defined.

Global Instance printed_eq_dec `{EqDecision Est} : EqDecision printed.
Proof. solve_decision. Defined.

Global Instance exn_eq_dec : EqDecision exn.
Proof. solve_decision. Defined.

Global Instance outcome_eq_dec `{EqDecision A} : EqDecision (outcome A).
Proof. solve_decision. Defined.

(** A piece of a cell: runs on the kernel, changes it, and either finishes
    with a value or stops at an exception (the kernel keeps what was done
    before the exception). *)
Record cell (A : Type) := Cell { run : kernel → outcome A * kernel }.
Global Arguments Cell {A} _.
Global Arguments run {A} _ _.

Global Instance cell_ret : MRet cell := λ A a, Cell (λ k, (Done a, k)).

Global Instance cell_bind : MBind cell := λ A B f m,
  Cell (λ k, match run m k with
             | (Done a, k') => run (f a) k'
             | (Raise e, k') => (Raise e, k')
             end).

Definition raise {A} (e : exn) : cell A := Cell (λ k, (Raise e, k)).

(** [x = v] *)
Definition assign (x : string) (v : value) : cell unit :=
  Cell (λ k, (Done tt, Kernel (<[x := v]> (ns k)) (calls k) (stdout k))).

(** Reading the name [x]. *)
Definition load (x : string) : cell value :=
  Cell (λ k, match ns k !! x with
             | Some v => (Done v, k)
             | None => (Raise (NameError x), k)
             end).

(** The estimator bound to [x], to use its attribute [attr]: floats and
    dictionaries have no such attribute. *)
Definition load_est (x attr : string) : cell Est :=
  v ← load x;
  match v with VEst e => mret e | _ => raise (AttributeError attr) end.

Definition log (c : call) : cell unit :=
  Cell (λ k, (Done tt, Kernel (ns k) (calls k ++ [c]) (stdout k))).

(** [print(label, v)] *)
Definition print (label : string) (v : value) : cell unit :=
  Cell (λ k, (Done tt, Kernel (ns k) (calls k) (stdout k ++ [Print_ label v]))).

(** [print(label % v)], where [label] holds one conversion [%0.5f]: it
    takes a number. *)
Definition print_formatted (label : string) (v : value) : cell unit :=
  match v with
  | VFloat _ => print label v
  | _ => raise TypeError
  end.

(** [a > b]: defined on two floats. *)
Definition py_gt (a b : value) : cell bool :=
  match a, b with
  | VFloat x, VFloat y => mret (PyFloat.gt x y)
  | _, _ => raise TypeError
  end.

(** [x = cls(...)] with the keyword arguments [kw] *)
Definition new (x : string) (c : estimator_class) (kw : kwargs) : cell unit :=
  log (Construct c kw);; assign x (VEst (construct c kw)).

(** [obj.set_params] with the entries of [g] as keyword arguments: the
    object bound to [obj] is changed in place. *)
Definition call_set_params (obj : string) (g : kwargs) : cell unit :=
  e ← load_est obj "set_params";
  log (SetParams obj g);; assign obj (VEst (set_params g e)).

(** [obj.fit(X_d, y_d)] *)
Definition call_fit (obj : string) (d : dataset) : cell unit :=
  e ← load_est obj "fit";
  log (Fit obj d);; assign obj (VEst (fit d e)).

(** [obj.oob_score_] *)
Definition get_oob_score_ (obj : string) : cell value :=
  e ← load_est obj "oob_score_";
  log (GetOob obj (oob_score_ e));; mret (VFloat (oob_score_ e)).

(** [obj.score(X_d, y_d)] *)
Definition call_score (obj : string) (d : dataset) : cell value :=
  e ← load_est obj "score";
  log (Score obj d (score d e));; mret (VFloat (score d e)).

(** Where a sweep reads its score: the attribute [oob_score_], or a call
    of [score] on a partition. *)
Inductive score_source := OutOfBag | AccuracyOn (d : dataset).

Definition read_score (src : score_source) (obj : string) : cell value :=
  match src with
  | OutOfBag => get_oob_score_ obj
  | AccuracyOn d => call_score obj d
  end.

Definition score_of (src : score_source) (e : Est) : spec_float :=
  match src with
  | OutOfBag => oob_score_ e
  | AccuracyOn d => score d e
  end.

Definition read_call (src : score_source) (obj : string) (x : spec_float) : call :=
  match src with
  | OutOfBag => GetOob obj x
  | AccuracyOn d => Score obj d x
  end.

(** [for g in grid: body].  The body takes the combination as its
    argument; that the loop also leaves its variable ([g], [bg], [rfg])
    bound in the kernel is not modelled, and no cell reads it after the
    loop. *)
Fixpoint for_each {A} (grid : list A) (body : A → cell unit) : cell unit :=
  match grid with
  | [] => mret tt
  | g :: rest => body g;; for_each rest body
  end.

End Kernel.

(** ** The three grid-search cells *)

Section Cells.
Context {sk : Sklearn}.

(** Keyword arguments of the three constructor calls. *)
Definition bag_kwargs : kwargs :=
  <["oob_score" := PBool true]> (<["max_features" := PNone]>
  (<["criterion" := PStr "log_loss"]> (<["warm_start" := PBool false]>
  (<["random_state" := PInt 1]> (<["n_jobs" := PInt (-2)]> ∅))))).

Definition boost_kwargs : kwargs :=
  <["max_features" := PNone]> (<["warm_start" := PBool false]>
  (<["random_state" := PInt 1]> ∅)).

Definition rfc_kwargs : kwargs :=
  <["criterion" := PStr "log_loss"]> (<["oob_score" := PBool true]>
  (<["warm_start" := PBool false]> (<["random_state" := PInt 1]>
  (<["n_jobs" := PInt (-2)]> ∅)))).

(** The shape the three loop bodies share: the estimator [obj], the score
    read from [src], the name [thr] the test compares with, and the names
    [ws] and [wp] the two assignments write. *)
Definition sweep_body (src : score_source) (obj thr ws wp : string)
    (g : kwargs) : cell unit :=
  call_set_params obj g;;
  call_fit obj XY_train;;
  s ← read_score src obj;
  b ← load thr;
  c ← py_gt s b;
  if c : bool then
    s' ← read_score src obj;
    assign ws s';;
    assign wp (VDict g)
  else mret tt.

(** The shape of a cell up to the end of its loop, and of its two
    [print] statements.  The grid is an argument: the assignment of the
    dictionary of lists to its name ([bag_hyperparam_grid] and the like)
    is not modelled. *)
Definition sweep_search (cls : estimator_class) (kw : kwargs)
    (src : score_source) (obj thr ws wp : string) (grid : list kwargs)
    : cell unit :=
  new obj cls kw;;
  assign thr (VFloat PyFloat.f0_5);;
  for_each grid (sweep_body src obj thr ws wp).

Definition sweep_report (ws wp : string) : cell unit :=
  b ← load ws;
  print_formatted "OOB: %0.5f" b;;
  p ← load wp;
  print "Best parameters:" p.

(** *** Bagged forest *)

(** Body of [for g in ParameterGrid(bag_hyperparam_grid)]. *)
Definition bag_body (g : kwargs) : cell unit :=
  call_set_params "bag" g;;
  call_fit "bag" XY_train;;
  (* save if best *)
  s ← get_oob_score_ "bag";
  b ← load "best_score";
  c ← py_gt s b;
  if c : bool then
    s' ← get_oob_score_ "bag";
    assign "best_score" s';;
    assign "best_params" (VDict g)
  else mret tt.

(** The cell up to the end of the loop; [grid] is the sequence that
    [ParameterGrid(bag_hyperparam_grid)] yields. *)
Definition bag_search (grid : list kwargs) : cell unit :=
  new "bag" RandomForestClassifier bag_kwargs;;
  assign "best_score" (VFloat PyFloat.f0_5);;
  for_each grid bag_body.

(** The two [print] statements that end the cell. *)
Definition bag_report : cell unit :=
  b ← load "best_score";
  print_formatted "OOB: %0.5f" b;;
  p ← load "best_params";
  print "Best parameters:" p.

Definition bag_cell (grid : list kwargs) : cell unit :=
  bag_search grid;; bag_report.

(** *** Boosted forest *)

Definition boost_body (bg : kwargs) : cell unit :=
  call_set_params "boost" bg;;
  call_fit "boost" XY_train;;
  (* save if best *)
  s ← call_score "boost" XY_train;
  b ← load "best_boost_score";
  c ← py_gt s b;
  if c : bool then
    s' ← call_score "boost" XY_train;
    assign "best_boost_score" s';;
    assign "best_boost_params" (VDict bg)
  else mret tt.

Definition boost_search (grid : list kwargs) : cell unit :=
  new "boost" GradientBoostingClassifier boost_kwargs;;
  assign "best_boost_score" (VFloat PyFloat.f0_5);;
  for_each grid boost_body.

Definition boost_report : cell unit :=
  b ← load "best_boost_score";
  print_formatted "OOB: %0.5f" b;;
  p ← load "best_boost_params";
  print "Best parameters:" p.

Definition boost_cell (grid : list kwargs) : cell unit :=
  boost_search grid;; boost_report.

(** *** Random forest *)

(** The test reads [best_score]; the two assignments write
    [best_rfc_score] and [best_rfc_params]. *)
Definition rfc_body (rfg : kwargs) : cell unit :=
  call_set_params "rfc" rfg;;
  call_fit "rfc" XY_train;;
  (* save if best *)
  s ← get_oob_score_ "rfc";
  b ← load "best_score";
  c ← py_gt s b;
  if c : bool then
    s' ← get_oob_score_ "rfc";
    assign "best_rfc_score" s';;
    assign "best_rfc_params" (VDict rfg)
  else mret tt.

Definition rfc_search (grid : list kwargs) : cell unit :=
  new "rfc" RandomForestClassifier rfc_kwargs;;
  assign "best_score" (VFloat PyFloat.f0_5);;
  for_each grid rfc_body.

(** print best results *)
Definition rfc_report : cell unit :=
  b ← load "best_rfc_score";
  print_formatted "OOB: %0.5f" b;;
  p ← load "best_rfc_params";
  print "Best parameters:" p.

Definition rfc_cell (grid : list kwargs) : cell unit :=
  rfc_search grid;; rfc_report.

End Cells.

(** ** The grids of the notebook *)

(** The dictionaries over the keys of [items], in the order of
    [itertools.product]: the value of the last key changes fastest. *)
Fixpoint product (items : list (string * list pyval)) : list kwargs :=
  match items with
  | [] => [∅]
  | (key, values) :: rest =>
      flat_map (λ v, (λ g : kwargs, <[key := v]> g) <$> product rest) values
  end.

Definition by_key (a b : string * list pyval) : Prop :=
  String.leb a.1 b.1 = true.

#[global] Instance by_key_dec a b : Decision (by_key a b).
Proof. unfold by_key. apply _. Defined.

(** [ParameterGrid(param_grid)] of scikit-learn, as it iterates: the product
    over [sorted(param_grid.items())].  [param_grid] lists the entries of
    the dictionary in the order they are written. *)
Definition ParameterGrid (param_grid : list (string * list pyval)) : list kwargs :=
  product (merge_sort by_key param_grid).

Definition bag_hyperparam_grid : list (string * list pyval) :=
  [("min_samples_leaf", PInt <$> [1; 3; 5; 7; 9]);
   ("n_estimators", PInt <$> [500; 750; 1000; 1250; 1500; 2000])].

Definition boost_hyperparam_grid : list (string * list pyval) :=
  [("max_depth", PInt <$> [1; 3; 5; 7; 9]);
   ("n_estimators", PInt <$> [500; 750; 1000; 1250; 1500; 2000]);
   ("learning_rate", [PFloat PyFloat.f0_001; PFloat PyFloat.f0_01;
                      PFloat PyFloat.f0_1; PFloat PyFloat.f0_5; PInt 1])].

Definition rf_hyperparam_grid : list (string * list pyval) :=
  [("max_features", PInt <$> [3; 4; 5; 6; 7; 8]);
   ("min_samples_leaf", PInt <$> [1; 3; 5; 7; 9]);
   ("n_estimators", PInt <$> [500; 750; 1000; 1250; 1500; 2000])].

(** The combination the recorded run of the random-forest cell printed. *)
Definition rfc_printed_params : kwargs :=
  <["max_features" := PInt 8]> (<["min_samples_leaf" := PInt 9]>
  (<["n_estimators" := PInt 2000]> ∅)).

(** ** What a sweep sees: the scored combinations *)

Section Scored.
Context {sk : Sklearn}.

(** The estimator after one iteration: [set_params] then [fit] on the
    training partition. *)
Definition tuned (e : Est) (g : kwargs) : Est := fit XY_train (set_params g e).

(** The (combination, score) pairs of a sweep that starts with the estimator
    [e] and reads its score with [read] after each fit. *)
Fixpoint scored (read : Est → spec_float) (e : Est) (grid : list kwargs)
    : list (kwargs * spec_float) :=
  match grid with
  | [] => []
  | g :: rest => (g, read (tuned e g)) :: scored read (tuned e g) rest
  end.

(** Accuracy on the held-out validation partition (never read by a sweep). *)
Definition valid_accuracy (e : Est) : spec_float := score XY_valid e.

(** Library calls of the bagged loop from threshold [b]: two score reads
    in an iteration that improves, one otherwise. *)
Fixpoint loop_calls (obj : string) (rd : spec_float → call) (b : spec_float)
    (sc : list (kwargs * spec_float)) : list call :=
  match sc with
  | [] => []
  | (g, s) :: rest =>
      [SetParams obj g; Fit obj XY_train; rd s] ++
      (if PyFloat.gt s b then rd s :: loop_calls obj rd s rest
       else loop_calls obj rd b rest)
  end.

(** Library calls of a loop whose threshold stays [b]. *)
Definition fixed_loop_calls (obj : string) (rd : spec_float → call)
    (b : spec_float) (sc : list (kwargs * spec_float)) : list call :=
  flat_map (λ gs : kwargs * spec_float,
    [SetParams obj gs.1; Fit obj XY_train; rd gs.2] ++
    (if PyFloat.gt gs.2 b then [rd gs.2] else [])) sc.

(** The kernel after one iteration of a loop body, when [obj] is bound to
    the estimator [e] and the threshold to [b]. *)
Definition after_body (src : score_source) (obj ws wp : string)
    (g : kwargs) (e : Est) (b : spec_float) (k : kernel) : kernel :=
  let s := score_of src (tuned e g) in
  let n := <[obj := VEst (tuned e g)]> (ns k) in
  if PyFloat.gt s b
  then Kernel (<[wp := VDict g]> (<[ws := VFloat s]> n))
         (calls k ++ [SetParams obj g; Fit obj XY_train;
                      read_call src obj s; read_call src obj s])
         (stdout k)
  else Kernel n
         (calls k ++ [SetParams obj g; Fit obj XY_train; read_call src obj s])
         (stdout k).

(** The kernel after the whole loop; [raises] tells whether the assignment
    of the score writes the threshold itself. *)
Fixpoint after_loop (raises : bool) (src : score_source) (obj ws wp : string)
    (grid : list kwargs) (e : Est) (b : spec_float) (k : kernel) : kernel :=
  match grid with
  | [] => k
  | g :: rest =>
      let s := score_of src (tuned e g) in
      after_loop raises src obj ws wp rest (tuned e g)
        (if raises && PyFloat.gt s b then s else b)
        (after_body src obj ws wp g e b k)
  end.

(** The scored combinations of the three sweeps, each from the estimator
    its cell constructs. *)
Definition bag_scored (grid : list kwargs) : list (kwargs * spec_float) :=
  scored (score_of OutOfBag) (construct RandomForestClassifier bag_kwargs) grid.

Definition boost_scored (grid : list kwargs) : list (kwargs * spec_float) :=
  scored (score_of (AccuracyOn XY_train))
    (construct GradientBoostingClassifier boost_kwargs) grid.

Definition rfc_scored (grid : list kwargs) : list (kwargs * spec_float) :=
  scored (score_of OutOfBag) (construct RandomForestClassifier rfc_kwargs) grid.

Definition is_fit (c : call) : bool :=
  match c with Fit _ _ => true | _ => false end.

Definition is_set_or_fit (c : call) : bool :=
  match c with SetParams _ _ | Fit _ _ => true | _ => false end.

(** The scores that the logged calls returned, with the partition they
    were computed on ([None]: out-of-bag). *)
Definition score_reads (cs : list call) : list (option dataset * spec_float) :=
  flat_map (λ c, match c with
                 | GetOob _ x => [(None, x)]
                 | Score _ d x => [(Some d, x)]
                 | _ => []
                 end) cs.

End Scored.

(** The best-so-far pair after the scored combinations [sc], from the
    threshold [b] and the combination [w] ([None]: nothing retained). *)
Fixpoint best_so_far (b : spec_float) (w : option kwargs)
    (sc : list (kwargs * spec_float)) : spec_float * option kwargs :=
  match sc with
  | [] => (b, w)
  | (g, s) :: rest =>
      if PyFloat.gt s b then best_so_far s (Some g) rest
      else best_so_far b w rest
  end.

(** The pair retained when the threshold [b] is never raised. *)
Fixpoint last_above (b : spec_float) (w : option (kwargs * spec_float))
    (sc : list (kwargs * spec_float)) : option (kwargs * spec_float) :=
  match sc with
  | [] => w
  | (g, s) :: rest =>
      if PyFloat.gt s b then last_above b (Some (g, s)) rest
      else last_above b w rest
  end.

(** How many of the scored combinations [sc] raise the best-so-far score
    that starts at [b]. *)
Fixpoint improvements (b : spec_float) (sc : list (kwargs * spec_float)) : nat :=
  match sc with
  | [] => 0
  | (g, s) :: rest =>
      if PyFloat.gt s b then S (improvements s rest) else improvements b rest
  end.

(** ** The cells that use what a sweep retained *)

Section Session.
Context {sk : Sklearn}.

(** Errors of the cells below: those of the sweeps, and the KeyError of a
    dictionary subscript. *)
Inductive error :=
  | Builtin (e : exn)
  | KeyError (key : string).

(** What a cell shows: a [print] of a label and a value, a [print] of a
    text alone, or a [print] of a label and [round(x, digits)]. *)
Inductive line :=
  | Shown (p : printed)
  | Text (s : string)
  | Rounded (label : string) (digits : Z) (x : spec_float).

(** The notebook between two cells: its globals, the library calls made so
    far and everything shown so far. *)
Record session := Session {
  globals : gmap string value;
  performed : list call;
  page : list line
}.

Inductive result (A : Type) :=
  | Ok (a : A)
  | Failed (e : error).
Global Arguments Ok {A} a.
Global Arguments Failed {A} e.

Global Instance error_eq_dec : EqDecision error.
Proof. solve_decision. Defined.

Global Instance line_eq_dec `{EqDecision Est} : EqDecision line.
Proof. solve_decision. Defined.

Global Instance result_eq_dec `{EqDecision A} : EqDecision (result A).
Proof. solve_decision. Defined.

Global Instance session_eq_dec `{EqDecision Est} : EqDecision session.
Proof. solve_decision. Defined.

Record stmt (A : Type) := Stmt { exec : session → result A * session }.
Global Arguments Stmt {A} _.
Global Arguments exec {A} _ _.

Global Instance stmt_ret : MRet stmt := λ A a, Stmt (λ n, (Ok a, n)).

Global Instance stmt_bind : MBind stmt := λ A B f m,
  Stmt (λ n, match exec m n with
             | (Ok a, n') => exec (f a) n'
             | (Failed e, n') => (Failed e, n')
             end).

Definition fail {A} (e : error) : stmt A := Stmt (λ n, (Failed e, n)).

(** A piece of a sweep cell run inside a session: it sees the globals and
    the calls, and what it prints is added to the page. *)
Definition lift {A} (m : cell A) : stmt A :=
  Stmt (λ n,
    let r := run m (Kernel (globals n) (performed n) []) in
    (match r.1 with Done a => Ok a | Raise e => Failed (Builtin e) end,
     Session (ns r.2) (calls r.2) (page n ++ (Shown <$> stdout r.2)))).

(** [d[key]] *)
Definition subscript (d : value) (key : string) : stmt pyval :=
  match d with
  | VDict g =>
      match g !! key with
      | Some v => mret v
      | None => fail (KeyError key)
      end
  | _ => fail (Builtin TypeError)
  end.
(* A float is not subscriptable.  What subscripting an estimator does is
   the library's business: no statement below is about that case. *)

(** [print(text)] *)
Definition print_text (text : string) : stmt unit :=
  Stmt (λ n, (Ok tt, Session (globals n) (performed n) (page n ++ [Text text]))).

(** [print(label, round(v, digits))] *)
Definition print_rounded (label : string) (v : value) (digits : Z) : stmt unit :=
  match v with
  | VFloat x =>
      Stmt (λ n, (Ok tt, Session (globals n) (performed n)
                           (page n ++ [Rounded label digits x])))
  | _ => fail (Builtin TypeError)
  end.

(** *** Bagged forest *)

(** The cell that builds the model to report from [best_params]. *)
Definition bag_rebuild : stmt unit :=
  p ← lift (load "best_params");
  leaf ← subscript p "min_samples_leaf";
  p' ← lift (load "best_params");
  trees ← subscript p' "n_estimators";
  lift (new "bag" RandomForestClassifier
          (<["min_samples_leaf" := leaf]> (<["n_estimators" := trees]>
          (<["oob_score" := PBool true]> (<["max_features" := PNone]>
          (<["criterion" := PStr "log_loss"]> (<["warm_start" := PBool false]>
          (<["random_state" := PInt 1]> (<["n_jobs" := PInt (-2)]> ∅))))))))).

(** Print the results *)
Definition bag_results : stmt unit :=
  print_text "Bagged tree Best Model";;
  print_text " ";;
  (* fit and predict on partitioned data set *)
  lift (call_fit "bag" XY_train);;
  a ← lift (call_score "bag" XY_train);
  print_rounded "Training accuracy:" a 4;;
  a ← lift (call_score "bag" XY_valid);
  print_rounded "Validation accuracy:" a 4;;
  a ← lift (call_score "bag" XY_test);
  print_rounded "Test accuracy:" a 4;;
  a ← lift (call_score "bag" XY_all);
  print_rounded "X accuracy for Partially Trained Model:" a 4;;
  (* fit and predict on all data *)
  lift (call_fit "bag" XY_all);;
  a ← lift (call_score "bag" XY_all);
  print_rounded "X accuracy on Fully Trained Model:" a 4.

(** *** Boosted forest *)

Definition boost_rebuild : stmt unit :=
  p ← lift (load "best_boost_params");
  depth ← subscript p "max_depth";
  p' ← lift (load "best_boost_params");
  trees ← subscript p' "n_estimators";
  p'' ← lift (load "best_boost_params");
  rate ← subscript p'' "learning_rate";
  lift (new "boost" GradientBoostingClassifier
          (<["max_depth" := depth]> (<["n_estimators" := trees]>
          (<["learning_rate" := rate]> (<["random_state" := PInt 1]> ∅))))).

Definition boost_results : stmt unit :=
  print_text "Boosted tree Best Model";;
  print_text " ";;
  lift (call_fit "boost" XY_train);;
  a ← lift (call_score "boost" XY_train);
  print_rounded "Training accuracy:" a 4;;
  a ← lift (call_score "boost" XY_valid);
  print_rounded "Validation accuracy:" a 4;;
  a ← lift (call_score "boost" XY_test);
  print_rounded "Test accuracy:" a 4;;
  a ← lift (call_score "boost" XY_all);
  print_rounded "X accuracy for Partially Trained Model:" a 4;;
  lift (call_fit "boost" XY_all);;
  a ← lift (call_score "boost" XY_all);
  print_rounded "X accuracy on Fully Trained Model:" a 4.

(** *** Random forest *)

(** The cell that builds the model to report: its hyperparameters are
    written out. *)
Definition rfc_final_kwargs : kwargs :=
  <["n_estimators" := PInt 2000]> (<["max_features" := PInt 7]>
  (<["min_samples_leaf" := PInt 9]> (<["criterion" := PStr "log_loss"]>
  (<["oob_score" := PBool true]> (<["warm_start" := PBool false]>
  (<["random_state" := PInt 1]> ∅)))))).

Definition rfc_rebuild : stmt unit :=
  lift (new "rfc" RandomForestClassifier rfc_final_kwargs).

Definition rfc_results : stmt unit :=
  print_text "Random Forest Best Model";;
  print_text " ";;
  lift (call_fit "rfc" XY_train);;
  a ← lift (get_oob_score_ "rfc");
  print_rounded "Training accuracy:" a 4;;
  a ← lift (call_score "rfc" XY_valid);
  print_rounded "Validation accuracy:" a 4;;
  a ← lift (call_score "rfc" XY_test);
  print_rounded "Test accuracy:" a 4;;
  a ← lift (call_score "rfc" XY_all);
  print_rounded "X accuracy for Partially Trained Model:" a 4;;
  lift (call_fit "rfc" XY_all);;
  a ← lift (call_score "rfc" XY_all);
  print_rounded "X accuracy on Fully Trained Model:" a 4.

(** The shape the three cells of results share: the title, the estimator
    [obj] and where the figure printed as training accuracy is read. *)
Definition model_results (title obj : string) (src : score_source) : stmt unit :=
  print_text title;;
  print_text " ";;
  lift (call_fit obj XY_train);;
  a ← lift (read_score src obj);
  print_rounded "Training accuracy:" a 4;;
  a ← lift (call_score obj XY_valid);
  print_rounded "Validation accuracy:" a 4;;
  a ← lift (call_score obj XY_test);
  print_rounded "Test accuracy:" a 4;;
  a ← lift (call_score obj XY_all);
  print_rounded "X accuracy for Partially Trained Model:" a 4;;
  lift (call_fit obj XY_all);;
  a ← lift (call_score obj XY_all);
  print_rounded "X accuracy on Fully Trained Model:" a 4.

(** What a cell of results shows for the estimator [e]. *)
Definition results_page (title : string) (src : score_source) (e : Est)
    : list line :=
  [Text title; Text " ";
   Rounded "Training accuracy:" 4 (score_of src (fit XY_train e));
   Rounded "Validation accuracy:" 4 (score XY_valid (fit XY_train e));
   Rounded "Test accuracy:" 4 (score XY_test (fit XY_train e));
   Rounded "X accuracy for Partially Trained Model:" 4
     (score XY_all (fit XY_train e));
   Rounded "X accuracy on Fully Trained Model:" 4
     (score XY_all (fit XY_all (fit XY_train e)))].

(** The library calls of a cell of results. *)
Definition results_calls (obj : string) (src : score_source) (e : Est)
    : list call :=
  [Fit obj XY_train;
   read_call src obj (score_of src (fit XY_train e));
   Score obj XY_valid (score XY_valid (fit XY_train e));
   Score obj XY_test (score XY_test (fit XY_train e));
   Score obj XY_all (score XY_all (fit XY_train e));
   Fit obj XY_all;
   Score obj XY_all (score XY_all (fit XY_all (fit XY_train e)))].

(** The keyword arguments of the bagged model to report, for a leaf size
    and a number of trees. *)
Definition bag_final_kwargs (leaf trees : pyval) : kwargs :=
  <["min_samples_leaf" := leaf]> (<["n_estimators" := trees]> bag_kwargs).

Definition boost_final_kwargs (depth trees rate : pyval) : kwargs :=
  <["max_depth" := depth]> (<["n_estimators" := trees]>
  (<["learning_rate" := rate]> (<["random_state" := PInt 1]> ∅))).

End Session.

(** ** The submission file *)

Inductive field := FStr (s : string) | FInt (n : Z).

#[global] Instance field_eq_dec : EqDecision field.
Proof. solve_decision. Defined.

(** [writer.writerow(r)] appends one row to the file. *)
Definition writerow (r : list field) (file : list (list field)) : list (list field) :=
  file ++ [r].

(** [for i in range(...): writer.writerow([i, y_REAL_test[i]])];
    [None] stands for the IndexError of [y_REAL_test[i]]. *)
Fixpoint write_predictions (y_REAL_test : list Z) (range : list nat)
    (file : list (list field)) : option (list (list field)) :=
  match range with
  | [] => Some file
  | i :: rest =>
      match y_REAL_test !! i with
      | Some label =>
          write_predictions y_REAL_test rest
            (writerow [FInt (Z.of_nat i); FInt label] file)
      | None => None
      end
  end.

(** The cell that writes [test_file_xgboost.csv]. *)
Definition submission_cell (y_REAL_test : list Z) : option (list (list field)) :=
  write_predictions y_REAL_test (seq 0 (length y_REAL_test))
    (writerow [FStr "Id"; FStr "subscription"] []).

(** A file keyed by the [Id] index of the test records: the header, then
    for each record its [Id] and its predicted label. *)
Definition keyed_by_Id (ids : list Z) (labels : list Z) : list (list field) :=
  [FStr "Id"; FStr "subscription"]
    :: zip_with (λ id label, [FInt id; FInt label]) ids labels.

(** ** The XGBoost notebook: the categorical columns *)

Section Frames.
Context {series : Type}.

(** [s.astype("category")], the library's conversion of one column. *)
Variable astype_category : series → series.

(** A data frame: its columns, in order, each with its name. *)
Definition frame : Type := list (string * series).

(** [X.columns] *)
Definition columns (X : frame) : list string := X.*1.

(** [X[col]]; a column that is not there is a KeyError. *)
Fixpoint getitem (X : frame) (col : string) : result series :=
  match X with
  | [] => Failed (KeyError col)
  | (c, s) :: rest => if decide (c = col) then Ok s else getitem rest col
  end.

(** [X[col] = s]: the column is replaced where it stands, and a new
    column is added last. *)
Fixpoint setitem (X : frame) (col : string) (s : series) : frame :=
  match X with
  | [] => [(col, s)]
  | (c, s') :: rest =>
      if decide (c = col) then (c, s) :: rest
      else (c, s') :: setitem rest col s
  end.

(** numerical variables *)
Definition num_vars : list string :=
  ["age"; "time_spent"; "banner_views"; "banner_views_old";
   "days_elapsed_old"; "X4"].

(** categorical variables: [list(set(X.columns).difference(num_vars))].
    The order of a list made from a set is not fixed, so [cat_vars] is
    any list of these names without repetition. *)
Definition is_cat_vars (X : frame) (cat_vars : list string) : Prop :=
  NoDup cat_vars ∧ ∀ c, c ∈ cat_vars ↔ c ∈ columns X ∧ c ∉ num_vars.

(** One such list: the names in the order of the columns. *)
Definition cat_vars_in_order (X : frame) : list string :=
  filter (λ c, c ∉ num_vars) (remove_dups (columns X)).

(** converting type to category:
    [for col in cat_vars:
       X[col] = X[col].astype("category")
       campaign_test[col] = campaign_test[col].astype("category")].
    The two frames are returned as the loop leaves them, also when it
    stops on an error. *)
Fixpoint convert (cat_vars : list string) (X campaign_test : frame)
    : result unit * (frame * frame) :=
  match cat_vars with
  | [] => (Ok tt, (X, campaign_test))
  | col :: rest =>
      match getitem X col with
      | Failed e => (Failed e, (X, campaign_test))
      | Ok s =>
          let X' := setitem X col (astype_category s) in
          match getitem campaign_test col with
          | Failed e => (Failed e, (X', campaign_test))
          | Ok t =>
              convert rest X' (setitem campaign_test col (astype_category t))
          end
      end
  end.

(** The frame [X] with the columns named in [cols] converted. *)
Definition retype (cols : list string) (X : frame) : frame :=
  (λ cs, if decide (cs.1 ∈ cols) then (cs.1, astype_category cs.2) else cs)
    <$> X.

End Frames.

(** ** The XGBoost notebook: the estimators *)

(** The keyword arguments of [xgb_clf], the estimator that is searched. *)
Definition xgb_clf_kwargs : kwargs :=
  <["tree_method" := PStr "hist"]> (<["objective" := PStr "binary:logistic"]>
  (<["eval_metric" := PStr "auc"]> (<["enable_categorical" := PBool true]>
  (<["n_jobs" := PInt (-2)]> (<["random_state" := PInt 391]> ∅))))).

(** The keys of [param_search]. *)
Definition param_search_keys : list string :=
  ["n_estimators"; "max_depth"; "learning_rate"; "colsample_bytree";
   "gamma"; "reg_lambda"].

(** A call that unpacks a dictionary and then names keywords: a keyword
    that comes twice is a TypeError. *)
Fixpoint call_kwargs (unpacked : kwargs) (named : list (string * pyval))
    : result kwargs :=
  match named with
  | [] => Ok unpacked
  | (k, v) :: rest =>
      match unpacked !! k with
      | Some _ => Failed (Builtin TypeError)
      | None => call_kwargs (<[k := v]> unpacked) rest
      end
  end.

(** The keyword arguments of [xgb_model], the estimator that is fitted
    and used for the predictions. *)
Definition xgb_model_kwargs (best_params : kwargs) : result kwargs :=
  call_kwargs best_params
    [("tree_method", PStr "hist"); ("objective", PStr "binary:logistic");
     ("eval_metric", PStr "auc"); ("enable_categorical", PBool true)].

(** ** A small estimator to run the cells on *)

Module Toy.

(** The hyperparameters set so far and, once fitted, those of the fit. *)
Record est := MkEst { params : kwargs; model : option kwargs }.

#[global] Instance est_eq_dec : EqDecision est.
Proof. solve_decision. Defined.

Definition leaf (p : kwargs) : Z :=
  match p !! "min_samples_leaf" with Some (PInt n) => n | _ => 0 end.

(** A library whose scores are tables indexed by [min_samples_leaf]:
    [oob] for the out-of-bag score, [acc d] for the accuracy on [d]. *)
Definition lib (oob : Z → spec_float) (acc : dataset → Z → spec_float) : Sklearn := {|
  Est := est;
  construct _ kw := MkEst kw None;
  set_params g e := MkEst (g ∪ params e) (model e);
  fit _ e := MkEst (params e) (Some (params e));
  oob_score_ e := match model e with Some p => oob (leaf p) | None => S754_nan end;
  score d e := match model e with Some p => acc d (leaf p) | None => S754_nan end
|}.

Definition leaf_is (n : Z) : kwargs := {[ "min_samples_leaf" := PInt n ]}.

Definition no_acc (d : dataset) (n : Z) : spec_float := S754_nan.

(** leaf 1 scores 0.80 and leaf 3 scores 0.90. *)
Definition rising (n : Z) : spec_float :=
  if n =? 1 then PyFloat.f0_8 else if n =? 3 then PyFloat.f0_9 else S754_nan.

(** leaf 1 scores 0.90 and leaf 3 scores 0.80. *)
Definition falling (n : Z) : spec_float :=
  if n =? 1 then PyFloat.f0_9 else if n =? 3 then PyFloat.f0_8 else S754_nan.

(** every leaf scores 0.30. *)
Definition low (n : Z) : spec_float := PyFloat.f0_3.

(** leaf 3 scores 0.90, every other leaf 0.30. *)
Definition only_3 (n : Z) : spec_float :=
  if n =? 3 then PyFloat.f0_9 else PyFloat.f0_3.

(** every leaf scores 0.90. *)
Definition flat (n : Z) : spec_float := PyFloat.f0_9.

(** leaf 1 is the better model on held-out data, leaf 9 memorises the
    training partition. *)
Definition overfit (d : dataset) (n : Z) : spec_float :=
  match d with
  | XY_train => if n =? 9 then PyFloat.f1_0 else PyFloat.f0_8
  | _ => if n =? 9 then PyFloat.f0_7 else PyFloat.f0_8
  end.

#[global] Instance lib_est_eq_dec oob acc : EqDecision (@Est (lib oob acc)).
Proof. apply est_eq_dec. Defined.

Definition sk_rising : Sklearn := lib rising no_acc.
Definition sk_falling : Sklearn := lib falling no_acc.
Definition sk_low : Sklearn := lib low no_acc.
Definition sk_flat : Sklearn := lib flat no_acc.
Definition sk_only_3 : Sklearn := lib only_3 no_acc.
Definition sk_overfit : Sklearn := lib low overfit.

(** A kernel in which no cell has run. *)
Definition fresh {sk : Sklearn} : kernel := Kernel ∅ [] [].

(** A kernel in the middle of the bagged loop: [bag] is bound to the
    estimator of the cell and [best_score] to 0.90. *)
Definition mid_loop {sk : Sklearn} : kernel :=
  Kernel (<["best_score" := VFloat PyFloat.f0_9]>
            (<["bag" := VEst (construct RandomForestClassifier bag_kwargs)]> ∅))
         [] [].

(** A combination of the bagged grid, and one of the boosted grid. *)
Definition leaf_trees (n t : Z) : kwargs :=
  <["min_samples_leaf" := PInt n]> (<["n_estimators" := PInt t]> ∅).

Definition depth_trees_rate (d t : Z) (r : spec_float) : kwargs :=
  <["max_depth" := PInt d]> (<["n_estimators" := PInt t]>
  (<["learning_rate" := PFloat r]> ∅)).

(** A session in which no cell has run. *)
Definition blank {sk : Sklearn} : session := Session ∅ [] [].

(** Columns that only record whether they have been converted. *)
Definition as_category (converted : bool) : bool := true.

Definition train_frame : list (string * bool) :=
  [("age", false); ("job", false); ("X4", false); ("marital", false)].

Definition test_frame : list (string * bool) :=
  [("job", false); ("age", false); ("marital", false); ("device", false)].

(** A test frame without the column [marital]. *)
Definition short_test_frame : list (string * bool) :=
  [("job", false); ("age", false); ("device", false)].

End Toy.

(** * Facts *)

(** ** The order on Python floats *)

Module PyFloatFacts.
Import PyFloat.

Ltac fold_pos_compare :=
  repeat match goal with
  | |- context [PosDef.Pos.compare_cont Eq ?m ?n] =>
      change (PosDef.Pos.compare_cont Eq m n) with (Pos.compare m n)
  | H : context [PosDef.Pos.compare_cont Eq ?m ?n] |- _ =>
      change (PosDef.Pos.compare_cont Eq m n) with (Pos.compare m n) in H
  end.

Ltac compare_cases :=
  repeat match goal with
  | H : context [Z.compare ?a ?b] |- _ =>
      destruct (Z.compare_spec a b); try discriminate H
  | H : context [Pos.compare ?a ?b] |- _ =>
      destruct (Pos.compare_spec a b); try discriminate H
  | |- context [Z.compare ?a ?b] => destruct (Z.compare_spec a b)
  | |- context [Pos.compare ?a ?b] => destruct (Pos.compare_spec a b)
  end.

(** Case analysis on the floats in sight, then on signs, exponents and
    mantissas. *)
Ltac float_cases :=
  unfold gt, ge, SFltb, SFleb in *;
  repeat match goal with
  | x : spec_float |- _ =>
      destruct x; cbn [SFcompare] in *; try discriminate; try reflexivity
  end;
  fold_pos_compare;
  repeat match goal with
  | s : bool |- _ =>
      destruct s; cbn beta iota in *; try discriminate; try reflexivity
  end;
  compare_cases; cbn [CompOpp] in *;
  try discriminate; try reflexivity; try lia.

Lemma gt_irrefl x : gt x x = false.
Proof. float_cases. Qed.

Lemma gt_trans a b c : gt a b = true → gt b c = true → gt a c = true.
Proof. intros Hab Hbc. float_cases. Qed.

Lemma gt_asym a b : gt a b = true → gt b a = false.
Proof. intros Hab. float_cases. Qed.

Lemma gt_not_nan a b : gt a b = true → a ≠ S754_nan ∧ b ≠ S754_nan.
Proof. intros Hab. split; intros ->; float_cases. Qed.

Lemma gt_ge a b : gt a b = true → ge a b = true.
Proof. intros Hab. float_cases. Qed.

Lemma ge_refl x : x ≠ S754_nan → ge x x = true.
Proof. intros Hx. float_cases; congruence. Qed.

(** Above [0.5] the order is total: two values neither of which exceeds
    the other are the same value. *)
Lemma above_half_total x y :
  gt x f0_5 = true → gt y f0_5 = true →
  gt x y = false → gt y x = false → x = y.
Proof.
  unfold f0_5. intros Hx Hy Hxy Hyx. float_cases. all: try (f_equal; lia).
Qed.

(** The constants are binary64 values, in the order of the decimals they
    stand for. *)
Lemma constants_binary64 :
  Forall (λ x, is_binary64 x = true)
    [f0_001; f0_01; f0_1; f0_3; f0_5; f0_7; f0_8; f0_9; f1_0].
Proof. repeat constructor. Qed.

Lemma constants_ordered :
  gt f0_01 f0_001 = true ∧ gt f0_1 f0_01 = true ∧ gt f0_3 f0_1 = true ∧
  gt f0_5 f0_3 = true ∧ gt f0_7 f0_5 = true ∧ gt f0_8 f0_7 = true ∧
  gt f0_9 f0_8 = true ∧ gt f1_0 f0_9 = true.
Proof. repeat split. Qed.

End PyFloatFacts.

(** ** Running the pieces of a cell *)

Section RunFacts.
Context {sk : Sklearn}.

Lemma run_ret {A} (a : A) k : run (mret a) k = (Done a, k).
Proof. reflexivity. Qed.

Lemma run_bind {A B} (m : cell A) (f : A → cell B) k :
  run (m ≫= f) k =
  match run m k with
  | (Done a, k') => run (f a) k'
  | (Raise e, k') => (Raise e, k')
  end.
Proof. reflexivity. Qed.

Lemma run_load x k v : ns k !! x = Some v → run (load x) k = (Done v, k).
Proof. intros Hx. unfold load. simpl. by rewrite Hx. Qed.

Lemma run_load_unbound x k :
  ns k !! x = None → run (load x) k = (Raise (NameError x), k).
Proof. intros Hx. unfold load. simpl. by rewrite Hx. Qed.

Lemma run_load_est x attr k e :
  ns k !! x = Some (VEst e) → run (load_est x attr) k = (Done e, k).
Proof. intros Hx. unfold load_est. rewrite run_bind, (run_load _ _ _ Hx). done. Qed.

Lemma run_read_score src obj k e :
  ns k !! obj = Some (VEst e) →
  run (read_score src obj) k =
  (Done (VFloat (score_of src e)),
   Kernel (ns k) (calls k ++ [read_call src obj (score_of src e)]) (stdout k)).
Proof.
  intros Hobj.
  destruct src; unfold read_score, score_of, get_oob_score_, call_score;
    rewrite run_bind, (run_load_est _ _ _ _ Hobj); reflexivity.
Qed.

End RunFacts.

(** ** One iteration, then the whole loop *)

Section LoopFacts.
Context {sk : Sklearn}.

Lemma run_call_set_params obj g k e :
  ns k !! obj = Some (VEst e) →
  run (call_set_params obj g) k =
  (Done tt, Kernel (<[obj := VEst (set_params g e)]> (ns k))
                   (calls k ++ [SetParams obj g]) (stdout k)).
Proof.
  intros Hobj. unfold call_set_params.
  rewrite run_bind, (run_load_est _ _ _ _ Hobj). reflexivity.
Qed.

Lemma run_call_fit obj d k e :
  ns k !! obj = Some (VEst e) →
  run (call_fit obj d) k =
  (Done tt, Kernel (<[obj := VEst (fit d e)]> (ns k))
                   (calls k ++ [Fit obj d]) (stdout k)).
Proof.
  intros Hobj. unfold call_fit.
  rewrite run_bind, (run_load_est _ _ _ _ Hobj). reflexivity.
Qed.

Lemma sweep_body_run src obj thr ws wp g k e b :
  obj ≠ thr →
  ns k !! obj = Some (VEst e) →
  ns k !! thr = Some (VFloat b) →
  run (sweep_body src obj thr ws wp g) k =
  (Done tt, after_body src obj ws wp g e b k).
Proof.
  intros Hne Hobj Hthr. unfold sweep_body, after_body.
  rewrite run_bind, (run_call_set_params _ _ _ _ Hobj).
  rewrite run_bind.
  erewrite run_call_fit by (simpl; apply lookup_insert_eq).
  rewrite run_bind.
  erewrite run_read_score by (simpl; apply lookup_insert_eq).
  rewrite run_bind.
  erewrite run_load
    by (simpl; rewrite !lookup_insert_ne by done; exact Hthr).
  rewrite run_bind. simpl. fold (tuned e g).
  destruct (PyFloat.gt (score_of src (tuned e g)) b).
  - rewrite run_bind.
    erewrite run_read_score by (simpl; apply lookup_insert_eq).
    simpl. rewrite insert_insert_eq, <- !app_assoc. reflexivity.
  - simpl. rewrite insert_insert_eq, <- !app_assoc. reflexivity.
Qed.


Lemma for_each_run (raises : bool) src (obj thr ws wp : string) grid : ∀ k e b,
  obj ≠ thr → obj ≠ ws → obj ≠ wp → thr ≠ wp →
  (if raises then ws = thr else ws ≠ thr) →
  ns k !! obj = Some (VEst e) →
  ns k !! thr = Some (VFloat b) →
  run (for_each grid (sweep_body src obj thr ws wp)) k =
  (Done tt, after_loop raises src obj ws wp grid e b k).
Proof.
  induction grid as [|g rest IH]; intros k e b Hot Hos Hop Htp Hws Hobj Hthr.
  - reflexivity.
  - cbn [for_each after_loop]. rewrite run_bind.
    rewrite (sweep_body_run _ _ _ _ _ _ _ _ _ Hot Hobj Hthr).
    apply IH; try done; unfold after_body.
    + destruct (PyFloat.gt _ b); simpl;
        rewrite ?lookup_insert_ne by done; apply lookup_insert_eq.
    + destruct raises; destruct (PyFloat.gt _ b); simpl; subst;
        rewrite ?lookup_insert_ne by done;
        rewrite ?lookup_insert_eq; done.
Qed.

End LoopFacts.

(** ** The retained pair as a fold over the scored combinations *)

Lemma best_so_far_fst b w sc : (best_so_far b w sc).1 = (best_so_far b None sc).1.
Proof.
  revert b w. induction sc as [|[g s] sc IH]; intros b w; [done|].
  simpl. destruct (PyFloat.gt s b); [|apply IH].
  by rewrite (IH s (Some g)).
Qed.

Lemma best_so_far_snd b w sc :
  (best_so_far b w sc).2 =
  match (best_so_far b None sc).2 with Some g => Some g | None => w end.
Proof.
  revert b w. induction sc as [|[g s] sc IH]; intros b w; [done|].
  simpl. destruct (PyFloat.gt s b); [|apply IH].
  rewrite (IH s (Some g)). by destruct (best_so_far s None sc).2.
Qed.

Lemma last_above_acc b w sc :
  last_above b w sc =
  match last_above b None sc with Some gs => Some gs | None => w end.
Proof.
  revert w. induction sc as [|[g s] sc IH]; intros w; [done|].
  simpl. destruct (PyFloat.gt s b); [|apply IH].
  rewrite (IH (Some (g, s))). by destruct (last_above b None sc).
Qed.

Lemma last_above_filter b sc :
  last_above b None sc =
  last (List.filter (λ gs : kwargs * spec_float, PyFloat.gt gs.2 b) sc).
Proof.
  induction sc as [|[g s] sc IH]; [done|].
  simpl. destruct (PyFloat.gt s b) eqn:Hgt; [|done].
  by rewrite last_above_acc, IH, last_cons.
Qed.

Section AfterLoop.
Context {sk : Sklearn}.

(** A loop whose assignment raises the threshold ([ws] is [thr]). *)
Lemma after_loop_raising src (obj thr wp : string) grid : ∀ e b k,
  obj ≠ thr → obj ≠ wp → thr ≠ wp →
  ns k !! obj = Some (VEst e) →
  ns k !! thr = Some (VFloat b) →
  let k' := after_loop true src obj thr wp grid e b k in
  let sc := scored (score_of src) e grid in
  ns k' !! thr = Some (VFloat (best_so_far b None sc).1) ∧
  ns k' !! wp = match (best_so_far b None sc).2 with
                | Some g => Some (VDict g)
                | None => ns k !! wp
                end ∧
  ns k' !! obj = Some (VEst (fold_left tuned grid e)) ∧
  (∀ x, x ≠ obj → x ≠ thr → x ≠ wp → ns k' !! x = ns k !! x) ∧
  calls k' = calls k ++ loop_calls obj (read_call src obj) b sc ∧
  stdout k' = stdout k.
Proof.
  induction grid as [|g rest IH]; intros e b k Hot Hop Htp Hobj Hthr.
  - simpl. rewrite app_nil_r. done.
  - cbn [after_loop scored best_so_far loop_calls fold_left andb].
    set (s := score_of src (tuned e g)).
    unfold after_body. fold s.
    destruct (PyFloat.gt s b) eqn:Hgt.
    + match goal with |- context [after_loop _ _ _ _ _ _ _ _ ?k1] =>
        destruct (IH (tuned e g) s k1) as (Ht & Hp & Ho & Hx & Hc & Hs);
          try done
      end.
      { simpl. rewrite !lookup_insert_ne by done. apply lookup_insert_eq. }
      { simpl. rewrite lookup_insert_ne by done. apply lookup_insert_eq. }
      rewrite best_so_far_fst, best_so_far_snd.
      repeat split; try done.
      * rewrite Hp. simpl. rewrite lookup_insert_eq.
        by destruct (best_so_far s None _).2.
      * intros x ? ? ?. rewrite Hx by done. simpl.
        by rewrite !lookup_insert_ne by done.
      * rewrite Hc. simpl. rewrite <- !app_assoc. reflexivity.
    + match goal with |- context [after_loop _ _ _ _ _ _ _ _ ?k1] =>
        destruct (IH (tuned e g) b k1) as (Ht & Hp & Ho & Hx & Hc & Hs);
          try done
      end.
      { simpl. apply lookup_insert_eq. }
      { simpl. by rewrite lookup_insert_ne by done. }
      repeat split; try done.
      * rewrite Hp. simpl. by rewrite lookup_insert_ne by done.
      * intros x ? ? ?. rewrite Hx by done. simpl.
        by rewrite lookup_insert_ne by done.
      * rewrite Hc. simpl. rewrite <- !app_assoc. reflexivity.
Qed.

(** A loop whose assignments leave the threshold alone. *)
Lemma after_loop_fixed src (obj ws wp : string) grid : ∀ e b k,
  obj ≠ ws → obj ≠ wp → ws ≠ wp →
  ns k !! obj = Some (VEst e) →
  let k' := after_loop false src obj ws wp grid e b k in
  let sc := scored (score_of src) e grid in
  ns k' !! ws = match last_above b None sc with
                | Some gs => Some (VFloat gs.2)
                | None => ns k !! ws
                end ∧
  ns k' !! wp = match last_above b None sc with
                | Some gs => Some (VDict gs.1)
                | None => ns k !! wp
                end ∧
  ns k' !! obj = Some (VEst (fold_left tuned grid e)) ∧
  (∀ x, x ≠ obj → x ≠ ws → x ≠ wp → ns k' !! x = ns k !! x) ∧
  calls k' = calls k ++ fixed_loop_calls obj (read_call src obj) b sc ∧
  stdout k' = stdout k.
Proof.
  induction grid as [|g rest IH]; intros e b k Hos Hop Hsp Hobj.
  - simpl. rewrite app_nil_r. done.
  - cbn [after_loop scored last_above fold_left andb].
    unfold fixed_loop_calls. cbn [flat_map fst snd].
    fold (fixed_loop_calls obj (read_call src obj) b
            (scored (score_of src) (tuned e g) rest)).
    set (s := score_of src (tuned e g)).
    unfold after_body. fold s.
    match goal with |- context [after_loop _ _ _ _ _ _ _ _ ?k1] =>
      destruct (IH (tuned e g) b k1) as (Hw & Hp & Ho & Hx & Hc & Hs);
        try done
    end.
    { destruct (PyFloat.gt s b); simpl;
        rewrite ?lookup_insert_ne by done; apply lookup_insert_eq. }
    rewrite (last_above_acc b (Some (g, s))).
    repeat split; try done.
    + rewrite Hw. destruct (PyFloat.gt s b);
        (destruct (last_above b None _); [done|]); simpl;
        rewrite ?lookup_insert_ne by done; rewrite ?lookup_insert_eq; done.
    + rewrite Hp. destruct (PyFloat.gt s b);
        (destruct (last_above b None _); [done|]); simpl;
        rewrite ?lookup_insert_ne by done; rewrite ?lookup_insert_eq; done.
    + intros x ? ? ?. rewrite Hx by done.
      destruct (PyFloat.gt s b); simpl; by rewrite ?lookup_insert_ne by done.
    + rewrite Hc. destruct (PyFloat.gt s b); simpl;
        rewrite <- !app_assoc; reflexivity.
    + rewrite Hs. by destruct (PyFloat.gt s b).
Qed.

End AfterLoop.

(** ** The cells *)

Section CellFacts.
Context {sk : Sklearn}.

Lemma bag_search_shape grid :
  bag_search grid =
  sweep_search RandomForestClassifier bag_kwargs OutOfBag
    "bag" "best_score" "best_score" "best_params" grid.
Proof. reflexivity. Qed.


Lemma rfc_search_shape grid :
  rfc_search grid =
  sweep_search RandomForestClassifier rfc_kwargs OutOfBag
    "rfc" "best_score" "best_rfc_score" "best_rfc_params" grid.
Proof. reflexivity. Qed.

Lemma sweep_search_run (raises : bool) cls kw src (obj thr ws wp : string) grid k :
  obj ≠ thr → obj ≠ ws → obj ≠ wp → thr ≠ wp →
  (if raises then ws = thr else ws ≠ thr) →
  run (sweep_search cls kw src obj thr ws wp grid) k =
  (Done tt,
   after_loop raises src obj ws wp grid (construct cls kw) PyFloat.f0_5
     (Kernel (<[thr := VFloat PyFloat.f0_5]>
                (<[obj := VEst (construct cls kw)]> (ns k)))
             (calls k ++ [Construct cls kw]) (stdout k))).
Proof.
  intros Hot Hos Hop Htp Hws. unfold sweep_search.
  rewrite !run_bind. simpl.
  apply for_each_run; try done; simpl.
  - rewrite lookup_insert_ne by done. apply lookup_insert_eq.
  - apply lookup_insert_eq.
Qed.

(** The search of a cell whose assignment raises the threshold. *)
Lemma search_raising cls kw src (obj thr wp : string) grid k :
  obj ≠ thr → obj ≠ wp → thr ≠ wp →
  let sc := scored (score_of src) (construct cls kw) grid in
  ∃ k', run (sweep_search cls kw src obj thr thr wp grid) k = (Done tt, k') ∧
    ns k' !! thr = Some (VFloat (best_so_far PyFloat.f0_5 None sc).1) ∧
    ns k' !! wp = match (best_so_far PyFloat.f0_5 None sc).2 with
                  | Some g => Some (VDict g)
                  | None => ns k !! wp
                  end ∧
    (∀ x, x ≠ obj → x ≠ thr → x ≠ wp → ns k' !! x = ns k !! x) ∧
    calls k' = calls k ++ Construct cls kw
                 :: loop_calls obj (read_call src obj) PyFloat.f0_5 sc ∧
    stdout k' = stdout k.
Proof.
  intros Hot Hop Htp sc. eexists. split.
  { by apply (sweep_search_run true). }
  match goal with |- context [after_loop _ _ _ _ _ _ ?e ?b ?k1] =>
    destruct (after_loop_raising src obj thr wp grid e b k1)
      as (Ht & Hp & _ & Hx & Hc & Hs); try done
  end.
  { simpl. rewrite lookup_insert_ne by done. apply lookup_insert_eq. }
  { simpl. apply lookup_insert_eq. }
  repeat split; try done.
  - rewrite Hp. fold sc. destruct (best_so_far _ None sc).2; [done|].
    simpl. by rewrite !lookup_insert_ne by done.
  - intros x ? ? ?. rewrite Hx by done. simpl.
    by rewrite !lookup_insert_ne by done.
  - rewrite Hc. simpl. by rewrite <- app_assoc.
Qed.

(** The search of a cell whose assignments leave the threshold alone. *)
Lemma search_fixed cls kw src (obj thr ws wp : string) grid k :
  obj ≠ thr → obj ≠ ws → obj ≠ wp → thr ≠ ws → thr ≠ wp → ws ≠ wp →
  let sc := scored (score_of src) (construct cls kw) grid in
  ∃ k', run (sweep_search cls kw src obj thr ws wp grid) k = (Done tt, k') ∧
    ns k' !! thr = Some (VFloat PyFloat.f0_5) ∧
    ns k' !! ws = match last_above PyFloat.f0_5 None sc with
                  | Some gs => Some (VFloat gs.2)
                  | None => ns k !! ws
                  end ∧
    ns k' !! wp = match last_above PyFloat.f0_5 None sc with
                  | Some gs => Some (VDict gs.1)
                  | None => ns k !! wp
                  end ∧
    (∀ x, x ≠ obj → x ≠ thr → x ≠ ws → x ≠ wp → ns k' !! x = ns k !! x) ∧
    calls k' = calls k ++ Construct cls kw
                 :: fixed_loop_calls obj (read_call src obj) PyFloat.f0_5 sc ∧
    stdout k' = stdout k.
Proof.
  intros Hot Hos Hop Hts Htp Hsp sc. eexists. split.
  { by apply (sweep_search_run false). }
  match goal with |- context [after_loop _ _ _ _ _ _ ?e ?b ?k1] =>
    destruct (after_loop_fixed src obj ws wp grid e b k1)
      as (Hw & Hp & _ & Hx & Hc & Hs); try done
  end.
  { simpl. rewrite lookup_insert_ne by done. apply lookup_insert_eq. }
  repeat split; try done.
  - rewrite Hx by done. simpl. apply lookup_insert_eq.
  - rewrite Hw. fold sc. destruct (last_above _ None sc); [done|].
    simpl. by rewrite !lookup_insert_ne by done.
  - rewrite Hp. fold sc. destruct (last_above _ None sc); [done|].
    simpl. by rewrite !lookup_insert_ne by done.
  - intros x ? ? ? ?. rewrite Hx by done. simpl.
    by rewrite !lookup_insert_ne by done.
  - rewrite Hc. simpl. by rewrite <- app_assoc.
Qed.

(** The two [print] statements: both names bound and the first to a
    number, or the first unbound name raises, or the conversion of the
    first raises. *)
Lemma sweep_report_run (ws wp : string) k :
  run (sweep_report ws wp) k =
  match ns k !! ws with
  | None => (Raise (NameError ws), k)
  | Some (VFloat x) =>
      match ns k !! wp with
      | None => (Raise (NameError wp),
                 Kernel (ns k) (calls k)
                   (stdout k ++ [Print_ "OOB: %0.5f" (VFloat x)]))
      | Some p => (Done tt,
                   Kernel (ns k) (calls k)
                     (stdout k ++ [Print_ "OOB: %0.5f" (VFloat x);
                                   Print_ "Best parameters:" p]))
      end
  | Some _ => (Raise TypeError, k)
  end.
Proof.
  unfold sweep_report. rewrite run_bind. unfold load at 1. simpl.
  destruct (ns k !! ws) as [[x|g|e]|]; try done. simpl.
  destruct (ns k !! wp) as [p|]; [|done]. simpl.
  by rewrite <- app_assoc.
Qed.

End CellFacts.

(** ** The fold keeps the first maximum *)

Section BestSoFar.
Import PyFloat PyFloatFacts.
Implicit Types (sc : list (kwargs * spec_float)) (b s r : spec_float).
Implicit Types (g : kwargs) (w : option kwargs).

Lemma best_so_far_above b w sc :
  (best_so_far b w sc).1 = b ∨ gt (best_so_far b w sc).1 b = true.
Proof.
  revert b w. induction sc as [|[g s] sc IH]; intros b w; [by left|].
  simpl. destruct (gt s b) eqn:Hgt; [|apply IH].
  right. destruct (IH s (Some g)) as [-> | Hr]; [done|].
  by apply gt_trans with s.
Qed.

Lemma best_so_far_max b w sc g s :
  (g, s) ∈ sc → gt s (best_so_far b w sc).1 = false.
Proof.
  revert b w. induction sc as [|[g0 s0] sc IH]; intros b w Hin.
  { by apply elem_of_nil in Hin. }
  simpl. apply elem_of_cons in Hin as [[= -> ->] | Hin].
  - destruct (gt s0 b) eqn:Hgt.
    + destruct (best_so_far_above s0 (Some g0) sc) as [-> | Hr].
      * apply gt_irrefl.
      * by apply gt_asym.
    + destruct (best_so_far_above b w sc) as [-> | Hr]; [done|].
      destruct (gt s0 (best_so_far b w sc).1) eqn:Hs; [|done].
      by rewrite (gt_trans _ _ _ Hs Hr) in Hgt.
  - destruct (gt s0 b); by apply IH.
Qed.

Lemma best_so_far_unchanged b w sc :
  (∀ g s, (g, s) ∈ sc → gt s b = false) → best_so_far b w sc = (b, w).
Proof.
  induction sc as [|[g s] sc IH]; intros Hall; [done|].
  simpl. rewrite (Hall g s) by apply list_elem_of_here.
  apply IH. intros g' s' Hin. apply (Hall g' s'). by apply list_elem_of_further.
Qed.

Lemma best_so_far_none b sc :
  (best_so_far b None sc).2 = None →
  ∀ g s, (g, s) ∈ sc → gt s b = false.
Proof.
  revert b. induction sc as [|[g0 s0] sc IH]; intros b Hnone g s Hin.
  { by apply elem_of_nil in Hin. }
  simpl in Hnone. destruct (gt s0 b) eqn:Hgt.
  - rewrite best_so_far_snd in Hnone.
    by destruct (best_so_far s0 None sc).2.
  - apply elem_of_cons in Hin as [[= -> ->] | Hin]; [done|]. by apply (IH b Hnone g).
Qed.

(** The retained combination is the first one that has the retained
    score, and that score exceeds the threshold the fold started from. *)
Lemma best_so_far_first b sc g :
  (best_so_far b None sc).2 = Some g →
  let r := (best_so_far b None sc).1 in
  gt r b = true ∧
  ∃ i, sc !! i = Some (g, r) ∧
       ∀ j g', (j < i)%nat → sc !! j ≠ Some (g', r).
Proof.
  revert b. induction sc as [|[g0 s0] sc IH]; intros b Hsome; [done|].
  simpl in *. destruct (gt s0 b) eqn:Hgt.
  - rewrite best_so_far_fst. rewrite best_so_far_snd in Hsome.
    destruct (best_so_far s0 None sc).2 as [g1|] eqn:Hrest.
    + injection Hsome as ->.
      destruct (IH s0 Hrest) as (Hr & i & Hi & Hfirst).
      split; [by apply gt_trans with s0|].
      exists (S i). split; [done|].
      intros [|j] g' Hj; simpl.
      * intros [= _ Heq]. rewrite <- Heq, gt_irrefl in Hr. done.
      * apply Hfirst. lia.
    + injection Hsome as ->.
      rewrite (best_so_far_unchanged s0 None sc)
        by (by apply best_so_far_none).
      split; [done|]. exists 0%nat. split; [done|]. intros; lia.
  - destruct (IH b Hsome) as (Hr & i & Hi & Hfirst).
    split; [done|]. exists (S i). split; [done|].
    intros [|j] g' Hj; simpl.
    + intros [= _ Heq]. rewrite <- Heq, Hgt in Hr. done.
    + apply Hfirst. lia.
Qed.

(** Given where the first maximum above the floor stands, the fold
    retains it. *)
Lemma best_so_far_first_max sc i g s :
  sc !! i = Some (g, s) →
  gt s f0_5 = true →
  (∀ g' s', (g', s') ∈ sc → gt s' s = false) →
  (∀ j g', (j < i)%nat → sc !! j ≠ Some (g', s)) →
  best_so_far f0_5 None sc = (s, Some g).
Proof.
  intros Hi Hs Hmax Hfirst.
  assert (Hin : (g, s) ∈ sc) by (by eapply list_elem_of_lookup_2).
  destruct (best_so_far f0_5 None sc).2 as [g0|] eqn:Hw.
  - destruct (best_so_far_first _ _ _ Hw) as (Hr & i0 & Hi0 & Hfirst0).
    set (r := (best_so_far f0_5 None sc).1) in *.
    assert (r = s) as Hrs.
    { apply above_half_total; try done.
      - apply Hmax with g0. by eapply list_elem_of_lookup_2.
      - by apply best_so_far_max with g. }
    subst s. destruct (lt_eq_lt_dec i i0) as [[Hlt | ->] | Hlt].
    + by destruct (Hfirst0 i g Hlt).
    + rewrite Hi in Hi0. injection Hi0 as ->.
      rewrite (surjective_pairing (best_so_far f0_5 None sc)).
      by rewrite Hw.
    + by destruct (Hfirst i0 g0 Hlt).
  - by rewrite (best_so_far_none _ _ Hw g s Hin) in Hs.
Qed.

Lemma perm_elem_of {A} (x : A) (l l' : list A) :
  Permutation l l' → x ∈ l → x ∈ l'.
Proof. intros Hperm Hx. by rewrite <- Hperm. Qed.

(** The retained score is the same for every order of the scored
    combinations. *)
Lemma best_so_far_score_perm sc sc' :
  Permutation sc sc' →
  (best_so_far f0_5 None sc').1 = (best_so_far f0_5 None sc).1.
Proof.
  intros Hperm. pose proof (Permutation_sym Hperm) as Hperm'.
  destruct (best_so_far f0_5 None sc).2 as [g|] eqn:Hw;
    destruct (best_so_far f0_5 None sc').2 as [g'|] eqn:Hw'.
  - destruct (best_so_far_first _ _ _ Hw) as (Hr & i & Hi & _).
    destruct (best_so_far_first _ _ _ Hw') as (Hr' & i' & Hi' & _).
    apply list_elem_of_lookup_2 in Hi, Hi'.
    apply above_half_total; try done.
    + apply best_so_far_max with g'. by apply (perm_elem_of _ sc').
    + apply best_so_far_max with g. by apply (perm_elem_of _ sc).
  - destruct (best_so_far_first _ _ _ Hw) as (Hr & i & Hi & _).
    apply list_elem_of_lookup_2, (perm_elem_of _ _ _ Hperm) in Hi.
    by rewrite (best_so_far_none _ _ Hw' _ _ Hi) in Hr.
  - destruct (best_so_far_first _ _ _ Hw') as (Hr' & i' & Hi' & _).
    apply list_elem_of_lookup_2, (perm_elem_of _ _ _ Hperm') in Hi'.
    by rewrite (best_so_far_none _ _ Hw _ _ Hi') in Hr'.
  - rewrite !best_so_far_unchanged by (by apply best_so_far_none). done.
Qed.

(** The retained combination is the same too when only one combination
    has the retained score. *)
Lemma best_so_far_winner_perm sc sc' :
  Permutation sc sc' →
  (∀ g1 g2, (g1, (best_so_far f0_5 None sc).1) ∈ sc →
            (g2, (best_so_far f0_5 None sc).1) ∈ sc → g1 = g2) →
  (best_so_far f0_5 None sc').2 = (best_so_far f0_5 None sc).2.
Proof.
  intros Hperm Huniq. pose proof (Permutation_sym Hperm) as Hperm'.
  pose proof (best_so_far_score_perm _ _ Hperm) as Hscore.
  destruct (best_so_far f0_5 None sc).2 as [g|] eqn:Hw;
    destruct (best_so_far f0_5 None sc').2 as [g'|] eqn:Hw'; try done.
  - destruct (best_so_far_first _ _ _ Hw) as (_ & i & Hi & _).
    destruct (best_so_far_first _ _ _ Hw') as (_ & i' & Hi' & _).
    apply list_elem_of_lookup_2 in Hi.
    apply list_elem_of_lookup_2, (perm_elem_of _ _ _ Hperm') in Hi'.
    rewrite Hscore in Hi'. f_equal. by apply Huniq.
  - destruct (best_so_far_first _ _ _ Hw) as (Hr & i & Hi & _).
    apply list_elem_of_lookup_2, (perm_elem_of _ _ _ Hperm) in Hi.
    by rewrite (best_so_far_none _ _ Hw' _ _ Hi) in Hr.
  - destruct (best_so_far_first _ _ _ Hw') as (Hr' & i' & Hi' & _).
    apply list_elem_of_lookup_2, (perm_elem_of _ _ _ Hperm') in Hi'.
    by rewrite (best_so_far_none _ _ Hw _ _ Hi') in Hr'.
Qed.

End BestSoFar.

(** * The sweeps *)

Section Sweeps.
Context {sk : Sklearn}.
Import PyFloat PyFloatFacts.

Lemma bag_report_shape : bag_report = sweep_report "best_score" "best_params".
Proof. reflexivity. Qed.

Lemma boost_report_shape :
  boost_report = sweep_report "best_boost_score" "best_boost_params".
Proof. reflexivity. Qed.

Lemma rfc_report_shape :
  rfc_report = sweep_report "best_rfc_score" "best_rfc_params".
Proof. reflexivity. Qed.

(** The bagged search always ends, with the fold of its scored
    combinations in [best_score] and [best_params]. *)
Lemma bag_search_spec grid k :
  ∃ k', run (bag_search grid) k = (Done tt, k') ∧
    ns k' !! "best_score" =
      Some (VFloat (best_so_far f0_5 None (bag_scored grid)).1) ∧
    ns k' !! "best_params" =
      match (best_so_far f0_5 None (bag_scored grid)).2 with
      | Some g => Some (VDict g)
      | None => ns k !! "best_params"
      end ∧
    calls k' = calls k ++ Construct RandomForestClassifier bag_kwargs
                 :: loop_calls "bag" (GetOob "bag") f0_5 (bag_scored grid) ∧
    stdout k' = stdout k.
Proof.
  destruct (search_raising RandomForestClassifier bag_kwargs OutOfBag
              "bag" "best_score" "best_params" grid k)
    as (k' & Hrun & Hs & Hp & _ & Hc & Ho); try done.
  by exists k'.
Qed.

Lemma boost_search_spec grid k :
  ∃ k', run (boost_search grid) k = (Done tt, k') ∧
    ns k' !! "best_boost_score" =
      Some (VFloat (best_so_far f0_5 None (boost_scored grid)).1) ∧
    ns k' !! "best_boost_params" =
      match (best_so_far f0_5 None (boost_scored grid)).2 with
      | Some g => Some (VDict g)
      | None => ns k !! "best_boost_params"
      end ∧
    calls k' = calls k ++ Construct GradientBoostingClassifier boost_kwargs
                 :: loop_calls "boost" (Score "boost" XY_train) f0_5
                      (boost_scored grid) ∧
    stdout k' = stdout k.
Proof.
  destruct (search_raising GradientBoostingClassifier boost_kwargs
              (AccuracyOn XY_train)
              "boost" "best_boost_score" "best_boost_params" grid k)
    as (k' & Hrun & Hs & Hp & _ & Hc & Ho); try done.
  by exists k'.
Qed.

Lemma rfc_search_spec grid k :
  ∃ k', run (rfc_search grid) k = (Done tt, k') ∧
    ns k' !! "best_score" = Some (VFloat f0_5) ∧
    ns k' !! "best_rfc_score" =
      match last_above f0_5 None (rfc_scored grid) with
      | Some gs => Some (VFloat gs.2)
      | None => ns k !! "best_rfc_score"
      end ∧
    ns k' !! "best_rfc_params" =
      match last_above f0_5 None (rfc_scored grid) with
      | Some gs => Some (VDict gs.1)
      | None => ns k !! "best_rfc_params"
      end ∧
    calls k' = calls k ++ Construct RandomForestClassifier rfc_kwargs
                 :: fixed_loop_calls "rfc" (GetOob "rfc") f0_5 (rfc_scored grid) ∧
    stdout k' = stdout k.
Proof.
  destruct (search_fixed RandomForestClassifier rfc_kwargs OutOfBag
              "rfc" "best_score" "best_rfc_score" "best_rfc_params" grid k)
    as (k' & Hrun & Ht & Hs & Hp & _ & Hc & Ho); try done.
  by exists k'.
Qed.

(** When some score exceeds 0.5, the bagged search retains a combination
    of the grid with its score, and no score of the sweep exceeds it. *)
Lemma bag_search_finds_maximum grid k :
  (∃ g s, (g, s) ∈ bag_scored grid ∧ gt s f0_5 = true) →
  ∃ k' g s, run (bag_search grid) k = (Done tt, k') ∧
    ns k' !! "best_score" = Some (VFloat s) ∧
    ns k' !! "best_params" = Some (VDict g) ∧
    (g, s) ∈ bag_scored grid ∧
    ∀ g' s', (g', s') ∈ bag_scored grid → gt s' s = false.
Proof.
  intros (g0 & s0 & Hin & Hgt).
  destruct (bag_search_spec grid k) as (k' & Hrun & Hs & Hp & _).
  destruct (best_so_far f0_5 None (bag_scored grid)).2 as [g|] eqn:Hw.
  - destruct (best_so_far_first _ _ _ Hw) as (_ & i & Hi & _).
    exists k', g, (best_so_far f0_5 None (bag_scored grid)).1.
    repeat split; try done.
    + by eapply list_elem_of_lookup_2.
    + intros g' s'. apply best_so_far_max.
  - by rewrite (best_so_far_none _ _ Hw _ _ Hin) in Hgt.
Qed.

(** The same for the boosted search, on the scores it reads. *)
Lemma boost_search_finds_maximum grid k :
  (∃ g s, (g, s) ∈ boost_scored grid ∧ gt s f0_5 = true) →
  ∃ k' g s, run (boost_search grid) k = (Done tt, k') ∧
    ns k' !! "best_boost_score" = Some (VFloat s) ∧
    ns k' !! "best_boost_params" = Some (VDict g) ∧
    (g, s) ∈ boost_scored grid ∧
    ∀ g' s', (g', s') ∈ boost_scored grid → gt s' s = false.
Proof.
  intros (g0 & s0 & Hin & Hgt).
  destruct (boost_search_spec grid k) as (k' & Hrun & Hs & Hp & _).
  destruct (best_so_far f0_5 None (boost_scored grid)).2 as [g|] eqn:Hw.
  - destruct (best_so_far_first _ _ _ Hw) as (_ & i & Hi & _).
    exists k', g, (best_so_far f0_5 None (boost_scored grid)).1.
    repeat split; try done.
    + by eapply list_elem_of_lookup_2.
    + intros g' s'. apply best_so_far_max.
  - by rewrite (best_so_far_none _ _ Hw _ _ Hin) in Hgt.
Qed.

(** The whole bagged cell: it prints the retained score, then the retained
    combination or, when [best_params] is bound to nothing, stops at the
    NameError. *)
Lemma bag_cell_spec grid k :
  let s := (best_so_far f0_5 None (bag_scored grid)).1 in
  let p := match (best_so_far f0_5 None (bag_scored grid)).2 with
           | Some g => Some (VDict g)
           | None => ns k !! "best_params"
           end in
  let r := run (bag_cell grid) k in
  r.1 = match p with
        | Some _ => Done tt
        | None => Raise (NameError "best_params")
        end ∧
  ns r.2 !! "best_score" = Some (VFloat s) ∧
  ns r.2 !! "best_params" = p ∧
  stdout r.2 = stdout k ++ Print_ "OOB: %0.5f" (VFloat s)
                 :: match p with
                    | Some v => [Print_ "Best parameters:" v]
                    | None => []
                    end.
Proof.
  intros s p r. subst r p.
  destruct (bag_search_spec grid k) as (k1 & Hrun & Hs & Hp & _ & Ho).
  unfold bag_cell. rewrite run_bind, Hrun, bag_report_shape, sweep_report_run.
  fold s in Hs. rewrite Hs, Hp.
  destruct (best_so_far f0_5 None (bag_scored grid)).2; simpl;
    [by rewrite Ho|].
  destruct (ns k !! "best_params"); simpl; by rewrite Ho.
Qed.

(** The whole random-forest cell. *)
Lemma rfc_cell_spec grid k :
  let w := last_above f0_5 None (rfc_scored grid) in
  let s := match w with
           | Some gs => Some (VFloat gs.2)
           | None => ns k !! "best_rfc_score"
           end in
  let p := match w with
           | Some gs => Some (VDict gs.1)
           | None => ns k !! "best_rfc_params"
           end in
  let r := run (rfc_cell grid) k in
  r.1 = match s, p with
        | None, _ => Raise (NameError "best_rfc_score")
        | Some (VFloat _), None => Raise (NameError "best_rfc_params")
        | Some (VFloat _), Some _ => Done tt
        | Some _, _ => Raise TypeError
        end ∧
  ns r.2 !! "best_score" = Some (VFloat f0_5) ∧
  ns r.2 !! "best_rfc_score" = s ∧
  ns r.2 !! "best_rfc_params" = p ∧
  stdout r.2 = stdout k ++
               match s, p with
               | Some (VFloat x), None => [Print_ "OOB: %0.5f" (VFloat x)]
               | Some (VFloat x), Some v =>
                   [Print_ "OOB: %0.5f" (VFloat x); Print_ "Best parameters:" v]
               | _, _ => []
               end.
Proof.
  intros w s p r. subst r s p.
  destruct (rfc_search_spec grid k) as (k1 & Hrun & Ht & Hs & Hp & _ & Ho).
  unfold rfc_cell. rewrite run_bind, Hrun, rfc_report_shape, sweep_report_run.
  fold w in Hs, Hp. rewrite Hs, Hp. clearbody w.
  destruct w as [[g s]|]; simpl; [by rewrite Ho|].
  destruct (ns k !! "best_rfc_score") as [[x|g|e]|],
    (ns k !! "best_rfc_params");
    simpl; rewrite ?Ho, ?app_nil_r; done.
Qed.

(** Every score the loop reads comes from the source [src]. *)
Lemma loop_calls_reads src (obj : string) sc : ∀ b,
  Forall (λ r, r.1 = match src with
                     | OutOfBag => None
                     | AccuracyOn d => Some d
                     end)
    (score_reads (loop_calls obj (read_call src obj) b sc)).
Proof.
  induction sc as [|[g s] sc IH]; intros b; [constructor|].
  cbn [loop_calls]. unfold score_reads in *. simpl.
  destruct (gt s b); destruct src; simpl; repeat constructor; apply IH.
Qed.

(** Whatever the scores, a loop calls [set_params] and [fit] once for each
    combination, in grid order. *)
Lemma loop_calls_fits (obj : string) rd src grid : ∀ b e,
  (∀ x, is_set_or_fit (rd x) = false) → (∀ x, is_fit (rd x) = false) →
  List.filter is_set_or_fit (loop_calls obj rd b (scored src e grid)) =
    flat_map (λ g, [SetParams obj g; Fit obj XY_train]) grid ∧
  length (List.filter is_fit (loop_calls obj rd b (scored src e grid))) =
    length grid.
Proof.
  induction grid as [|g rest IH]; intros b e Hrd1 Hrd2; [done|].
  cbn [scored loop_calls flat_map]. simpl. rewrite Hrd1, Hrd2.
  destruct (gt _ b); simpl; rewrite ?Hrd1, ?Hrd2;
    destruct (IH b (tuned e g) Hrd1 Hrd2) as [Hsf Hf];
    destruct (IH (src (tuned e g)) (tuned e g) Hrd1 Hrd2) as [Hsf' Hf'];
    rewrite ?Hsf, ?Hsf', ?Hf, ?Hf'; done.
Qed.

(** One iteration of the bagged loop never lowers [best_score]. *)
Lemma bag_body_raises_best_score k g e b :
  ns k !! "bag" = Some (VEst e) →
  ns k !! "best_score" = Some (VFloat b) →
  b ≠ S754_nan →
  ∃ k' b', run (bag_body g) k = (Done tt, k') ∧
    ns k' !! "best_score" = Some (VFloat b') ∧
    ge b' b = true ∧ b' ≠ S754_nan.
Proof.
  intros Hbag Hbest Hnan.
  change (bag_body g) with
    (sweep_body OutOfBag "bag" "best_score" "best_score" "best_params" g).
  rewrite (sweep_body_run _ _ _ _ _ _ _ e b) by done.
  unfold after_body. destruct (gt _ b) eqn:Hgt.
  - eexists _, _. split; [reflexivity|]. simpl.
    rewrite lookup_insert_ne by done. rewrite lookup_insert_eq.
    split; [done|]. split; [by apply gt_ge | by apply (gt_not_nan _ b)].
  - eexists _, b. split; [reflexivity|]. simpl.
    rewrite lookup_insert_ne by done.
    split; [done|]. split; [by apply ge_refl | done].
Qed.

(** The bagged search reads out-of-bag scores only, the boosted search
    accuracies on the training partition only. *)
Lemma bag_search_reads_out_of_bag grid k :
  ∃ done_, calls (run (bag_search grid) k).2 = calls k ++ done_ ∧
    Forall (λ r, r.1 = None) (score_reads done_).
Proof.
  destruct (bag_search_spec grid k) as (k' & -> & _ & _ & Hc & _).
  eexists. split; [exact Hc|].
  apply (loop_calls_reads OutOfBag "bag").
Qed.

Lemma boost_search_reads_training_accuracy grid k :
  ∃ done_, calls (run (boost_search grid) k).2 = calls k ++ done_ ∧
    Forall (λ r, r.1 = Some XY_train) (score_reads done_).
Proof.
  destruct (boost_search_spec grid k) as (k' & -> & _ & _ & Hc & _).
  eexists. split; [exact Hc|].
  apply (loop_calls_reads (AccuracyOn XY_train) "boost").
Qed.

Lemma last_above_all b (sc : list (kwargs * spec_float)) :
  (∀ g s, (g, s) ∈ sc → gt s b = true) → last_above b None sc = last sc.
Proof.
  induction sc as [|[g s] sc IH]; intros Hall; [done|].
  simpl. rewrite (Hall g s) by apply list_elem_of_here.
  rewrite last_above_acc, IH, last_cons; [done|].
  intros g' s' Hin. apply (Hall g' s'). by apply list_elem_of_further.
Qed.

Lemma scored_combinations rd e grid : (scored rd e grid).*1 = grid.
Proof.
  revert e. induction grid as [|g rest IH]; intros e; [done|].
  simpl. by rewrite IH.
Qed.

(** When every out-of-bag score exceeds 0.5 the random-forest cell retains
    the last combination of the grid. *)
Lemma rfc_cell_retains_last_combination grid k g :
  last grid = Some g →
  (∀ g' s, (g', s) ∈ rfc_scored grid → gt s f0_5 = true) →
  ns (run (rfc_cell grid) k).2 !! "best_rfc_params" = Some (VDict g).
Proof.
  intros Hlast Hall.
  destruct (rfc_cell_spec grid k) as (_ & _ & _ & Hp & _). rewrite Hp.
  rewrite (last_above_all _ _ Hall).
  rewrite <- (scored_combinations (score_of OutOfBag)
                (construct RandomForestClassifier rfc_kwargs) grid) in Hlast.
  rewrite fmap_last in Hlast. fold (rfc_scored grid) in Hlast.
  destruct (last (rfc_scored grid)) as [[g' s]|]; [|done].
  by injection Hlast as ->.
Qed.

End Sweeps.

(** * Properties of the sweeps *)

Section Properties.
Context {sk : Sklearn}.
Import PyFloat PyFloatFacts.

(** C2, as amended.  When no score of the bagged sweep exceeds 0.5 the
    loop assigns nothing: [best_score] stays 0.5 and [best_params] keeps
    what it was bound to before the cell.  If it was bound to nothing, the
    cell prints the score 0.5 and stops at the NameError of [best_params],
    so no combination is reported; if an earlier run had bound it, the
    cell ends normally and prints that earlier combination. *)
Theorem bag_cell_no_winner grid k :
  (∀ g s, (g, s) ∈ bag_scored grid → gt s f0_5 = false) →
  let r := run (bag_cell grid) k in
  ns r.2 !! "best_score" = Some (VFloat f0_5) ∧
  ns r.2 !! "best_params" = ns k !! "best_params" ∧
  match ns k !! "best_params" with
  | None =>
      r.1 = Raise (NameError "best_params") ∧
      stdout r.2 = stdout k ++ [Print_ "OOB: %0.5f" (VFloat f0_5)]
  | Some v =>
      r.1 = Done tt ∧
      stdout r.2 = stdout k ++ [Print_ "OOB: %0.5f" (VFloat f0_5);
                                Print_ "Best parameters:" v]
  end.
Proof.
  intros Hlow r.
  destruct (bag_cell_spec grid k) as (Hr & Hs & Hp & Ho).
  fold r in Hr, Hs, Hp, Ho.
  rewrite (best_so_far_unchanged _ _ _ Hlow) in Hr, Hs, Hp, Ho.
  simpl in Hr, Hs, Hp, Ho.
  repeat split; try done.
  by destruct (ns k !! "best_params").
Qed.

(** C4. The test is strict: an iteration whose score does not exceed
    [best_score] changes neither [best_score] nor [best_params]; and the
    bagged search retains the first combination that has the highest
    score, whatever comes after it with the same score. *)
Theorem bag_first_seen_wins :
  (∀ k g e b,
     ns k !! "bag" = Some (VEst e) →
     ns k !! "best_score" = Some (VFloat b) →
     gt (oob_score_ (tuned e g)) b = false →
     ∃ k', run (bag_body g) k = (Done tt, k') ∧
       ns k' !! "best_score" = ns k !! "best_score" ∧
       ns k' !! "best_params" = ns k !! "best_params") ∧
  (∀ grid k i g s,
     bag_scored grid !! i = Some (g, s) →
     gt s f0_5 = true →
     (∀ g' s', (g', s') ∈ bag_scored grid → gt s' s = false) →
     (∀ j g', (j < i)%nat → bag_scored grid !! j ≠ Some (g', s)) →
     ∃ k', run (bag_search grid) k = (Done tt, k') ∧
       ns k' !! "best_score" = Some (VFloat s) ∧
       ns k' !! "best_params" = Some (VDict g)).
Proof.
  split.
  - intros k g e b Hbag Hbest Hle.
    change (bag_body g) with
      (sweep_body OutOfBag "bag" "best_score" "best_score" "best_params" g).
    rewrite (sweep_body_run _ _ _ _ _ _ _ e b) by done.
    eexists. split; [reflexivity|]. unfold after_body.
    change (score_of OutOfBag (tuned e g)) with (oob_score_ (tuned e g)).
    rewrite Hle. simpl. by rewrite !lookup_insert_ne by done.
  - intros grid k i g s Hi Hs Hmax Hfirst.
    destruct (bag_search_spec grid k) as (k' & Hrun & Hbs & Hp & _).
    rewrite (best_so_far_first_max _ _ _ _ Hi Hs Hmax Hfirst) in Hbs, Hp.
    by exists k'.
Qed.

(** C5. The bagged cell calls [set_params] and [fit] once for each
    combination of the grid, in grid order, each [fit] on the training
    partition right after the [set_params] of its combination: as many
    fits as the grid has combinations. *)
Theorem bag_cell_fits_each_combination_once grid k :
  ∃ done_, calls (run (bag_cell grid) k).2 = calls k ++ done_ ∧
    List.filter is_set_or_fit done_ =
      flat_map (λ g, [SetParams "bag" g; Fit "bag" XY_train]) grid ∧
    length (List.filter is_fit done_) = length grid.
Proof.
  destruct (bag_search_spec grid k) as (k1 & Hrun & _ & _ & Hc & _).
  unfold bag_cell. rewrite run_bind, Hrun, bag_report_shape, sweep_report_run.
  eexists. split.
  { destruct (ns k1 !! "best_score") as [[?|?|?]|];
      try destruct (ns k1 !! "best_params"); simpl; exact Hc. }
  simpl. apply loop_calls_fits; by intros [].
Qed.

(** C6, as amended.  Two runs of the bagged cell over the same grid, with
    the same library (the same data and seeds, so that [fit] and
    [oob_score_] return what they returned), started in any two kernels,
    leave the same [best_score].  When some score exceeds 0.5, or when the
    two kernels agree on [best_params], the two runs also end the same
    way, leave the same [best_params] and print the same lines. *)
Theorem bag_cell_two_runs grid k k' :
  let r := run (bag_cell grid) k in
  let r' := run (bag_cell grid) k' in
  ns r'.2 !! "best_score" = ns r.2 !! "best_score" ∧
  ((∃ g s, (g, s) ∈ bag_scored grid ∧ gt s f0_5 = true) ∨
   ns k' !! "best_params" = ns k !! "best_params" →
   r'.1 = r.1 ∧
   ns r'.2 !! "best_params" = ns r.2 !! "best_params" ∧
   ∃ out, stdout r.2 = stdout k ++ out ∧ stdout r'.2 = stdout k' ++ out).
Proof.
  intros r r'.
  destruct (bag_cell_spec grid k) as (Hr & Hs & Hp & Ho).
  destruct (bag_cell_spec grid k') as (Hr' & Hs' & Hp' & Ho').
  fold r in Hr, Hs, Hp, Ho. fold r' in Hr', Hs', Hp', Ho'.
  split; [by rewrite Hs', Hs|].
  intros Hcase.
  assert (match (best_so_far f0_5 None (bag_scored grid)).2 with
          | Some g => Some (VDict g)
          | None => ns k' !! "best_params"
          end
          = match (best_so_far f0_5 None (bag_scored grid)).2 with
            | Some g => Some (VDict g)
            | None => ns k !! "best_params"
            end) as Hsame.
  { destruct (best_so_far f0_5 None (bag_scored grid)).2 eqn:Hw; [done|].
    destruct Hcase as [(g & s & Hin & Hgt) | ->]; [|done].
    by rewrite (best_so_far_none _ _ Hw _ _ Hin) in Hgt. }
  rewrite Hsame in Hr', Hp', Ho'.
  split; [by rewrite Hr', Hr|]. split; [by rewrite Hp', Hp|].
  eexists. split; [exact Ho | exact Ho'].
Qed.

(** In particular a second run in the kernel the first run left ends the
    same way, prints the same lines and leaves the same [best_score] and
    [best_params]. *)
Lemma bag_cell_rerun_same_result grid k :
  let r1 := run (bag_cell grid) k in
  let r2 := run (bag_cell grid) r1.2 in
  r2.1 = r1.1 ∧
  ns r2.2 !! "best_score" = ns r1.2 !! "best_score" ∧
  ns r2.2 !! "best_params" = ns r1.2 !! "best_params" ∧
  ∃ out, stdout r1.2 = stdout k ++ out ∧ stdout r2.2 = stdout r1.2 ++ out.
Proof.
  intros r1 r2.
  destruct (bag_cell_spec grid k) as (Hr1 & Hs1 & Hp1 & Ho1).
  destruct (bag_cell_spec grid r1.2) as (Hr2 & Hs2 & Hp2 & Ho2).
  fold r1 in Hr1, Hs1, Hp1, Ho1, Hr2, Hs2, Hp2, Ho2.
  fold r2 in Hr2, Hs2, Hp2, Ho2.
  assert (ns r2.2 !! "best_params" = ns r1.2 !! "best_params") as Hsame.
  { rewrite Hp2, Hp1.
    by destruct (best_so_far f0_5 None (bag_scored grid)).2. }
  rewrite Hp2 in Hsame. rewrite Hsame in Hr2, Ho2. rewrite <- Hp1 in Hr1, Ho1.
  repeat split.
  - by rewrite Hr2, Hr1.
  - by rewrite Hs2, Hs1.
  - by rewrite Hp2.
  - eexists. split; [exact Ho1 | exact Ho2].
Qed.

(** C7, as amended.  Two grids whose scored combinations are the same up
    to order leave the same [best_score]; they leave the same
    [best_params] too when no two different combinations have that
    score. *)
Theorem bag_search_permuted grid grid' k :
  Permutation (bag_scored grid) (bag_scored grid') →
  let k1 := (run (bag_search grid) k).2 in
  let k2 := (run (bag_search grid') k).2 in
  ns k2 !! "best_score" = ns k1 !! "best_score" ∧
  ((∀ g1 g2 s, ns k1 !! "best_score" = Some (VFloat s) →
               (g1, s) ∈ bag_scored grid → (g2, s) ∈ bag_scored grid →
               g1 = g2) →
   ns k2 !! "best_params" = ns k1 !! "best_params").
Proof.
  intros Hperm k1 k2. subst k1 k2.
  destruct (bag_search_spec grid k) as (k1 & -> & Hs1 & Hp1 & _).
  destruct (bag_search_spec grid' k) as (k2 & -> & Hs2 & Hp2 & _).
  simpl. rewrite Hs1, Hs2, Hp1, Hp2.
  rewrite (best_so_far_score_perm _ _ Hperm). split; [done|].
  intros Huniq. rewrite (best_so_far_winner_perm _ _ Hperm); [done|].
  intros g1 g2. by apply Huniq.
Qed.

(** C10. The random-forest loop never writes [best_score], which stays
    0.5; the cell ends with, and prints, the score and the combination of
    the last scored combination above 0.5, whatever the earlier scores
    were; when there is none it assigns neither name. *)
Theorem rfc_cell_reports_last_above_floor grid k :
  let r := run (rfc_cell grid) k in
  ns r.2 !! "best_score" = Some (VFloat f0_5) ∧
  match last (List.filter (λ gs : kwargs * spec_float, gt gs.2 f0_5)
                (rfc_scored grid)) with
  | Some (g, s) =>
      r.1 = Done tt ∧
      ns r.2 !! "best_rfc_score" = Some (VFloat s) ∧
      ns r.2 !! "best_rfc_params" = Some (VDict g) ∧
      stdout r.2 = stdout k ++ [Print_ "OOB: %0.5f" (VFloat s);
                                Print_ "Best parameters:" (VDict g)]
  | None =>
      ns r.2 !! "best_rfc_score" = ns k !! "best_rfc_score" ∧
      ns r.2 !! "best_rfc_params" = ns k !! "best_rfc_params"
  end.
Proof.
  intros r. destruct (rfc_cell_spec grid k) as (Hr & Ht & Hs & Hp & Ho).
  fold r in Hr, Ht, Hs, Hp, Ho. split; [done|].
  rewrite <- last_above_filter.
  by destruct (last_above f0_5 None (rfc_scored grid)) as [[g s]|].
Qed.

End Properties.

(** * The cells on concrete scores *)

(** Each part of the statement is decided by running the cell. *)
Ltac by_evaluation :=
  cbv zeta;
  repeat match goal with |- _ ∧ _ => split end;
  apply (bool_decide_eq_true_1 _); vm_compute; reflexivity.

(** Statements over all the members of a list of scored combinations, in a
    form that can be decided on a concrete list. *)
Lemma scores_not_above (sc : list (kwargs * spec_float)) b :
  Forall (λ gs, PyFloat.gt gs.2 b = false) sc →
  ∀ g s, (g, s) ∈ sc → PyFloat.gt s b = false.
Proof. intros Hall g s Hin. by apply (proj1 (Forall_forall _ _) Hall (g, s)). Qed.

Lemma one_combination_per_score (sc : list (kwargs * spec_float)) :
  Forall (λ x, Forall (λ y, x.2 = y.2 → x.1 = y.1) sc) sc →
  ∀ g1 g2 s, (g1, s) ∈ sc → (g2, s) ∈ sc → g1 = g2.
Proof.
  intros Hall g1 g2 s H1 H2.
  pose proof (proj1 (Forall_forall _ _) Hall (g1, s) H1) as Hg1.
  by apply (proj1 (Forall_forall _ _) Hg1 (g2, s) H2).
Qed.

Section Runs.
Import PyFloat PyFloatFacts.

(** The three grids have 30, 150 and 180 combinations; the boosted grid is
    iterated with [learning_rate] first. *)
Example notebook_grid_sizes :
  length (ParameterGrid bag_hyperparam_grid) = 30%nat ∧
  length (ParameterGrid boost_hyperparam_grid) = 150%nat ∧
  length (ParameterGrid rf_hyperparam_grid) = 180%nat ∧
  head (ParameterGrid boost_hyperparam_grid)
    = Some (<["learning_rate" := PFloat f0_001]> (<["max_depth" := PInt 1]>
           (<["n_estimators" := PInt 500]> ∅))).
Proof. by_evaluation. Qed.

(** The combination the recorded run of the random-forest cell printed is
    the last one of its grid. *)
Example rfc_printed_params_is_last :
  last (ParameterGrid rf_hyperparam_grid) = Some rfc_printed_params.
Proof. by_evaluation. Qed.

(** On the grid of the notebook, with every out-of-bag score above 0.5 (the
    recorded run printed 0.84583), the random-forest cell retains the
    combination the recorded run printed. *)
Lemma rfc_cell_on_notebook_grid {sk : Sklearn} k :
  (∀ g s, (g, s) ∈ rfc_scored (ParameterGrid rf_hyperparam_grid) →
          gt s f0_5 = true) →
  ns (run (rfc_cell (ParameterGrid rf_hyperparam_grid)) k).2 !! "best_rfc_params"
    = Some (VDict rfc_printed_params).
Proof.
  intros Hall. apply rfc_cell_retains_last_combination; [|done].
  apply rfc_printed_params_is_last.
Qed.

(** The example of the specification: scores 0.80 then 0.90, the bagged
    cell reports the second combination with 0.90. *)
Example bag_cell_rising :
  let grid := [Toy.leaf_is 1; Toy.leaf_is 3] in
  let r := run (sk := Toy.sk_rising) (bag_cell grid) Toy.fresh in
  bag_scored (sk := Toy.sk_rising) grid
    = [(Toy.leaf_is 1, f0_8); (Toy.leaf_is 3, f0_9)] ∧
  r.1 = Done tt ∧
  stdout r.2 = [Print_ "OOB: %0.5f" (VFloat f0_9);
                Print_ "Best parameters:" (VDict (Toy.leaf_is 3))].
Proof. by_evaluation. Qed.

(** C1, at scores 0.90 then 0.80 in the random-forest cell: the cell ends
    normally and prints 0.80 with the second combination, although the
    first combination scored 0.90. *)
Theorem rfc_cell_reports_lower_score :
  let grid := [Toy.leaf_is 1; Toy.leaf_is 3] in
  let r := run (sk := Toy.sk_falling) (rfc_cell grid) Toy.fresh in
  rfc_scored (sk := Toy.sk_falling) grid
    = [(Toy.leaf_is 1, f0_9); (Toy.leaf_is 3, f0_8)] ∧
  gt f0_9 f0_8 = true ∧
  r.1 = Done tt ∧
  stdout r.2 = [Print_ "OOB: %0.5f" (VFloat f0_8);
                Print_ "Best parameters:" (VDict (Toy.leaf_is 3))].
Proof. by_evaluation. Qed.

(** C3, at the same scores: [best_rfc_score] is bound to nothing when the
    loop starts, to 0.90 after the first iteration and to 0.80 after the
    second, which is what the whole search ends with. *)
Theorem rfc_retained_score_decreases :
  let k0 := (run (sk := Toy.sk_falling) (rfc_search []) Toy.fresh).2 in
  let k1 := (run (rfc_body (Toy.leaf_is 1)) k0).2 in
  let k2 := (run (rfc_body (Toy.leaf_is 3)) k1).2 in
  ns k0 !! "best_score" = Some (VFloat f0_5) ∧
  ns k0 !! "best_rfc_score" = None ∧
  ns k1 !! "best_rfc_score" = Some (VFloat f0_9) ∧
  ns k2 !! "best_rfc_score" = Some (VFloat f0_8) ∧
  ge f0_8 f0_9 = false ∧
  ns (run (rfc_search [Toy.leaf_is 1; Toy.leaf_is 3]) Toy.fresh).2
    !! "best_rfc_score" = ns k2 !! "best_rfc_score".
Proof. by_evaluation. Qed.

(** C8, on an estimator whose deeper model memorises the training
    partition: every score the boosted cell reads is the accuracy on
    [XY_train], the partition of the fit, and the cell reports the
    combination that is worse on the validation partition. *)
Theorem boost_cell_selects_on_training_accuracy :
  let grid := [Toy.leaf_is 1; Toy.leaf_is 9] in
  let e := construct (Sklearn := Toy.sk_overfit)
             GradientBoostingClassifier boost_kwargs in
  let r := run (sk := Toy.sk_overfit) (boost_cell grid) Toy.fresh in
  boost_scored (sk := Toy.sk_overfit) grid
    = [(Toy.leaf_is 1, f0_8); (Toy.leaf_is 9, f1_0)] ∧
  scored valid_accuracy e grid
    = [(Toy.leaf_is 1, f0_8); (Toy.leaf_is 9, f0_7)] ∧
  score_reads (calls r.2)
    = [(Some XY_train, f0_8); (Some XY_train, f0_8);
       (Some XY_train, f1_0); (Some XY_train, f1_0)] ∧
  List.filter is_fit (calls r.2)
    = [Fit "boost" XY_train; Fit "boost" XY_train] ∧
  r.1 = Done tt ∧
  stdout r.2 = [Print_ "OOB: %0.5f" (VFloat f1_0);
                Print_ "Best parameters:" (VDict (Toy.leaf_is 9))].
Proof. by_evaluation. Qed.

(** C2 as stated fails when the cell is run again with another grid: the
    first run, on a grid whose only combination scores 0.90, binds
    [best_params]; the second run, on a grid whose only combination scores
    0.30, ends normally and prints the combination of the first run, which
    is not in its grid. *)
Lemma bag_cell_prints_earlier_winner :
  let k1 := (run (sk := Toy.sk_only_3) (bag_cell [Toy.leaf_is 3]) Toy.fresh).2 in
  let r := run (sk := Toy.sk_only_3) (bag_cell [Toy.leaf_is 5]) k1 in
  bag_scored (sk := Toy.sk_only_3) [Toy.leaf_is 5] = [(Toy.leaf_is 5, f0_3)] ∧
  gt f0_3 f0_5 = false ∧
  r.1 = Done tt ∧
  ns r.2 !! "best_params" = Some (VDict (Toy.leaf_is 3)) ∧
  stdout r.2 = stdout k1 ++ [Print_ "OOB: %0.5f" (VFloat f0_5);
                             Print_ "Best parameters:" (VDict (Toy.leaf_is 3))].
Proof. by_evaluation. Qed.

(** C6 as stated fails when no score exceeds 0.5: of two runs over the
    same grid with the same library, the one started in a kernel where
    nothing is bound stops at the NameError of [best_params] and retains
    no combination; the one started in the kernel an earlier sweep left
    ends normally and retains the combination of that earlier sweep.  The
    two retain the same score. *)
Lemma bag_cell_two_runs_differ :
  let grid := [Toy.leaf_is 1] in
  let earlier :=
    (run (sk := Toy.sk_only_3) (bag_cell [Toy.leaf_is 3]) Toy.fresh).2 in
  let r := run (sk := Toy.sk_only_3) (bag_cell grid) Toy.fresh in
  let r' := run (sk := Toy.sk_only_3) (bag_cell grid) earlier in
  bag_scored (sk := Toy.sk_only_3) grid = [(Toy.leaf_is 1, f0_3)] ∧
  r.1 = Raise (NameError "best_params") ∧
  ns r.2 !! "best_params" = None ∧
  r'.1 = Done tt ∧
  ns r'.2 !! "best_params" = Some (VDict (Toy.leaf_is 3)) ∧
  ns r.2 !! "best_score" = Some (VFloat f0_5) ∧
  ns r'.2 !! "best_score" = Some (VFloat f0_5).
Proof. by_evaluation. Qed.

(** C7 as stated fails on two combinations with the same score: the
    scored combinations of the two grids are the same up to order, the
    retained combinations differ. *)
Lemma bag_search_ties_depend_on_order :
  let grid := [Toy.leaf_is 1; Toy.leaf_is 3] in
  let grid' := [Toy.leaf_is 3; Toy.leaf_is 1] in
  Permutation (bag_scored (sk := Toy.sk_flat) grid)
    (bag_scored (sk := Toy.sk_flat) grid') ∧
  ns (run (sk := Toy.sk_flat) (bag_search grid') Toy.fresh).2 !! "best_params"
    ≠ ns (run (sk := Toy.sk_flat) (bag_search grid) Toy.fresh).2 !! "best_params".
Proof.
  cbv zeta. split; [|by_evaluation].
  replace (bag_scored (sk := Toy.sk_flat) [Toy.leaf_is 1; Toy.leaf_is 3])
    with [(Toy.leaf_is 1, f0_9); (Toy.leaf_is 3, f0_9)] by by_evaluation.
  replace (bag_scored (sk := Toy.sk_flat) [Toy.leaf_is 3; Toy.leaf_is 1])
    with [(Toy.leaf_is 3, f0_9); (Toy.leaf_is 1, f0_9)] by by_evaluation.
  apply perm_swap.
Qed.

End Runs.

(** * The submission file *)

Section Submission.

Lemma write_predictions_from (rest : list Z) : ∀ (pre : list Z) file,
  write_predictions (pre ++ rest) (seq (length pre) (length rest)) file =
  Some (file ++ zip_with (λ id label, [FInt id; FInt label])
                  (Z.of_nat <$> seq (length pre) (length rest)) rest).
Proof.
  induction rest as [|label rest IH]; intros pre file.
  - simpl. by rewrite app_nil_r.
  - cbn [length seq write_predictions].
    rewrite lookup_app_r, Nat.sub_diag by done. cbn [lookup list_lookup].
    replace (pre ++ label :: rest) with ((pre ++ [label]) ++ rest)
      by (by rewrite <- app_assoc).
    replace (S (length pre)) with (length (pre ++ [label]))
      by (rewrite length_app; simpl; lia).
    rewrite IH. unfold writerow. by rewrite <- app_assoc.
Qed.

Lemma keyed_by_Id_inj (ids ids' labels : list Z) :
  length ids = length labels → length ids' = length labels →
  keyed_by_Id ids labels = keyed_by_Id ids' labels → ids = ids'.
Proof.
  unfold keyed_by_Id. intros Hlen Hlen' [= Heq].
  revert ids ids' Hlen Hlen' Heq.
  induction labels as [|label labels IH]; intros [|id ids] [|id' ids'];
    simpl; try done.
  intros [= Hlen] [= Hlen'] [= -> Heq]. f_equal. by apply IH.
Qed.

(** X16. The rows are keyed by the [Id] of the test records exactly when
    the [Id] column counts the records from 0. *)
Lemma submission_cell_keyed_by_Id_iff (ids y_REAL_test : list Z) :
  length ids = length y_REAL_test →
  submission_cell y_REAL_test = Some (keyed_by_Id ids y_REAL_test) ↔
  ids = Z.of_nat <$> seq 0 (length y_REAL_test).
Proof.
  intros Hlen. unfold submission_cell.
  rewrite (write_predictions_from y_REAL_test []). simpl.
  fold (keyed_by_Id (Z.of_nat <$> seq 0 (length y_REAL_test)) y_REAL_test).
  split.
  - intros [= Heq]. symmetry. apply (keyed_by_Id_inj _ _ y_REAL_test); try done.
    + by rewrite length_fmap, length_seq.
    + unfold keyed_by_Id. by rewrite Heq.
  - by intros ->.
Qed.

(** C9, as amended.  The cell never fails; it writes the header row and
    then one row per prediction, made of the position of the prediction
    in [y_REAL_test], counted from 0, and of the predicted label. *)
Theorem submission_cell_keyed_by_position (y_REAL_test : list Z) :
  submission_cell y_REAL_test =
  Some (keyed_by_Id (Z.of_nat <$> seq 0 (length y_REAL_test)) y_REAL_test).
Proof.
  unfold submission_cell, keyed_by_Id.
  apply (write_predictions_from y_REAL_test []).
Qed.

(** C9 as stated fails on a test set whose [Id] column is 7, 9: the rows
    are keyed 0, 1. *)
Lemma submission_cell_not_keyed_by_Id :
  let ids := [7; 9] in
  let y_REAL_test := [1; 0] in
  length ids = length y_REAL_test ∧
  submission_cell y_REAL_test
    = Some [[FStr "Id"; FStr "subscription"];
            [FInt 0; FInt 1]; [FInt 1; FInt 0]] ∧
  submission_cell y_REAL_test ≠ Some (keyed_by_Id ids y_REAL_test).
Proof. repeat split. vm_compute. discriminate. Qed.

End Submission.

(** * Witnesses *)

Section Witnesses.
Import PyFloat PyFloatFacts.

(** The second example of the specification: one combination scoring
    0.30 in a kernel where nothing is bound. *)
Lemma bag_cell_no_winner_witness :
  let r := run (sk := Toy.sk_low) (bag_cell [Toy.leaf_is 1]) Toy.fresh in
  ns r.2 !! "best_score" = Some (VFloat f0_5) ∧
  ns r.2 !! "best_params" = None ∧
  r.1 = Raise (NameError "best_params") ∧
  stdout r.2 = [Print_ "OOB: %0.5f" (VFloat f0_5)].
Proof.
  apply (bag_cell_no_winner (sk := Toy.sk_low) [Toy.leaf_is 1] Toy.fresh).
  apply scores_not_above. by_evaluation.
Defined.

(** Two combinations that both score 0.90: the first is retained; and an
    iteration that scores 0.90 against a [best_score] of 0.90 changes
    nothing. *)
Lemma bag_first_seen_wins_witness :
  (∃ k', run (sk := Toy.sk_flat) (bag_body (Toy.leaf_is 3)) Toy.mid_loop
           = (Done tt, k') ∧
     ns k' !! "best_score" = ns Toy.mid_loop !! "best_score" ∧
     ns k' !! "best_params" = ns Toy.mid_loop !! "best_params") ∧
  (∃ k', run (sk := Toy.sk_flat)
           (bag_search [Toy.leaf_is 1; Toy.leaf_is 3]) Toy.fresh
           = (Done tt, k') ∧
     ns k' !! "best_score" = Some (VFloat f0_9) ∧
     ns k' !! "best_params" = Some (VDict (Toy.leaf_is 1))).
Proof.
  split.
  - apply (proj1 (bag_first_seen_wins (sk := Toy.sk_flat))
             Toy.mid_loop (Toy.leaf_is 3)
             (construct RandomForestClassifier bag_kwargs) f0_9);
      reflexivity.
  - apply (proj2 (bag_first_seen_wins (sk := Toy.sk_flat))
             [Toy.leaf_is 1; Toy.leaf_is 3] Toy.fresh 0%nat
             (Toy.leaf_is 1) f0_9).
    + by_evaluation.
    + reflexivity.
    + apply scores_not_above. by_evaluation.
    + intros j g' Hj. lia.
Defined.

(** Scores 0.80 and 0.90 in both orders: the same score and the same
    combination are retained. *)
Lemma bag_search_permuted_witness :
  let grid := [Toy.leaf_is 1; Toy.leaf_is 3] in
  let grid' := [Toy.leaf_is 3; Toy.leaf_is 1] in
  let k1 := (run (sk := Toy.sk_rising) (bag_search grid) Toy.fresh).2 in
  let k2 := (run (sk := Toy.sk_rising) (bag_search grid') Toy.fresh).2 in
  ns k2 !! "best_score" = ns k1 !! "best_score" ∧
  ns k2 !! "best_params" = ns k1 !! "best_params".
Proof.
  intros grid grid' k1 k2.
  destruct (bag_search_permuted (sk := Toy.sk_rising) grid grid' Toy.fresh)
    as [Hscore Hparams].
  - replace (bag_scored (sk := Toy.sk_rising) grid)
      with [(Toy.leaf_is 1, f0_8); (Toy.leaf_is 3, f0_9)] by by_evaluation.
    replace (bag_scored (sk := Toy.sk_rising) grid')
      with [(Toy.leaf_is 3, f0_9); (Toy.leaf_is 1, f0_8)] by by_evaluation.
    apply perm_swap.
  - split; [exact Hscore|]. apply Hparams.
    intros g1 g2 s _. revert g1 g2 s.
    apply one_combination_per_score. by_evaluation.
Defined.

End Witnesses.

(** * More properties of the three sweeps *)

Section MoreSweeps.
Context {sk : Sklearn}.
Import PyFloat PyFloatFacts.

Lemma scored_app rd e (l1 l2 : list kwargs) :
  scored rd e (l1 ++ l2) = scored rd e l1 ++ scored rd (fold_left tuned l1 e) l2.
Proof.
  revert e. induction l1 as [|g l1 IH]; intros e; [done|].
  simpl. by rewrite IH.
Qed.

Lemma best_so_far_app b w (sc1 sc2 : list (kwargs * spec_float)) :
  best_so_far b w (sc1 ++ sc2) =
  best_so_far (best_so_far b w sc1).1 (best_so_far b w sc1).2 sc2.
Proof.
  revert b w. induction sc1 as [|[g s] sc1 IH]; intros b w; [done|].
  simpl. destruct (gt s b); apply IH.
Qed.

Lemma best_so_far_not_below b w (sc : list (kwargs * spec_float)) :
  b ≠ S754_nan →
  (best_so_far b w sc).1 ≠ S754_nan ∧ ge (best_so_far b w sc).1 b = true.
Proof.
  intros Hnan. destruct (best_so_far_above b w sc) as [-> | Hgt].
  - split; [done | by apply ge_refl].
  - split; [by apply (gt_not_nan _ b) | by apply gt_ge].
Qed.

(** X1. When some score of the bagged sweep exceeds 0.5, the cell ends
    normally and prints a combination of the grid with its score: no score
    of the sweep exceeds the printed one, and the printed combination is
    the first that has it. *)
Theorem bag_cell_reports_first_maximum grid k :
  (∃ g s, (g, s) ∈ bag_scored grid ∧ gt s f0_5 = true) →
  ∃ i g s,
    bag_scored grid !! i = Some (g, s) ∧
    gt s f0_5 = true ∧
    (∀ g' s', (g', s') ∈ bag_scored grid → gt s' s = false) ∧
    (∀ j g', (j < i)%nat → bag_scored grid !! j ≠ Some (g', s)) ∧
    (run (bag_cell grid) k).1 = Done tt ∧
    stdout (run (bag_cell grid) k).2 =
      stdout k ++ [Print_ "OOB: %0.5f" (VFloat s);
                   Print_ "Best parameters:" (VDict g)].
Proof.
  intros (g0 & s0 & Hin & Hgt).
  destruct (bag_cell_spec grid k) as (Hr & _ & _ & Ho).
  destruct (best_so_far f0_5 None (bag_scored grid)).2 as [g|] eqn:Hw.
  - destruct (best_so_far_first _ _ _ Hw) as (Hs & i & Hi & Hfirst).
    exists i, g, (best_so_far f0_5 None (bag_scored grid)).1.
    repeat split; try done.
    intros g' s'. apply best_so_far_max.
  - by rewrite (best_so_far_none _ _ Hw _ _ Hin) in Hgt.
Qed.

(** X2. The same for the boosted cell, on the scores it reads, the
    accuracies on the training partition: it prints the first combination
    that has the highest of them. *)
Theorem boost_cell_reports_first_maximum grid k :
  (∃ g s, (g, s) ∈ boost_scored grid ∧ gt s f0_5 = true) →
  ∃ i g s,
    boost_scored grid !! i = Some (g, s) ∧
    gt s f0_5 = true ∧
    (∀ g' s', (g', s') ∈ boost_scored grid → gt s' s = false) ∧
    (∀ j g', (j < i)%nat → boost_scored grid !! j ≠ Some (g', s)) ∧
    (run (boost_cell grid) k).1 = Done tt ∧
    stdout (run (boost_cell grid) k).2 =
      stdout k ++ [Print_ "OOB: %0.5f" (VFloat s);
                   Print_ "Best parameters:" (VDict g)].
Proof.
  intros (g0 & s0 & Hin & Hgt).
  destruct (boost_search_spec grid k) as (k1 & Hrun & Hs & Hp & _ & Ho).
  unfold boost_cell.
  rewrite run_bind, Hrun, boost_report_shape, sweep_report_run, Hs, Hp.
  destruct (best_so_far f0_5 None (boost_scored grid)).2 as [g|] eqn:Hw.
  - destruct (best_so_far_first _ _ _ Hw) as (Hgt' & i & Hi & Hfirst).
    exists i, g, (best_so_far f0_5 None (boost_scored grid)).1.
    simpl. rewrite Ho. repeat split; try done.
    intros g' s'. apply best_so_far_max.
  - by rewrite (best_so_far_none _ _ Hw _ _ Hin) in Hgt.
Qed.

(** X3. The score the bagged search retains is never NaN and never below
    0.5, and a grid with one more combination at its end never retains a
    lower score. *)
Theorem bag_search_retained_score_grows grid g k :
  ∃ b b',
    ns (run (bag_search grid) k).2 !! "best_score" = Some (VFloat b) ∧
    ns (run (bag_search (grid ++ [g])) k).2 !! "best_score" = Some (VFloat b') ∧
    b ≠ S754_nan ∧ ge b f0_5 = true ∧ ge b' b = true.
Proof.
  destruct (bag_search_spec grid k) as (k1 & -> & Hs1 & _).
  destruct (bag_search_spec (grid ++ [g]) k) as (k2 & -> & Hs2 & _).
  eexists _, _. split; [exact Hs1|]. split; [exact Hs2|].
  assert (f0_5 ≠ S754_nan) as Hhalf by done.
  destruct (best_so_far_not_below f0_5 None (bag_scored grid) Hhalf)
    as [Hnan Hge].
  split; [done|]. split; [done|].
  unfold bag_scored at 1. rewrite scored_app, best_so_far_app.
  fold (bag_scored grid). by apply best_so_far_not_below.
Qed.

Lemma sweep_report_keeps (ws wp : string) k :
  ns (run (sweep_report ws wp) k).2 = ns k ∧
  calls (run (sweep_report ws wp) k).2 = calls k.
Proof.
  rewrite sweep_report_run.
  by destruct (ns k !! ws) as [[x|g|e]|]; [destruct (ns k !! wp)| | |].
Qed.

Lemma score_reads_app (cs1 cs2 : list call) :
  score_reads (cs1 ++ cs2) = score_reads cs1 ++ score_reads cs2.
Proof. apply flat_map_app. Qed.

Lemma loop_calls_reads_count src (obj : string) sc : ∀ b,
  length (score_reads (loop_calls obj (read_call src obj) b sc)) =
  (length sc + improvements b sc)%nat.
Proof.
  induction sc as [|[g s] sc IH]; intros b; [done|].
  cbn [loop_calls improvements]. rewrite score_reads_app.
  destruct (gt s b); destruct src; simpl; rewrite IH; lia.
Qed.

Lemma fixed_loop_calls_cons (obj : string) rd b g s
    (sc : list (kwargs * spec_float)) :
  fixed_loop_calls obj rd b ((g, s) :: sc) =
  ([SetParams obj g; Fit obj XY_train; rd s] ++
   (if gt s b then [rd s] else [])) ++ fixed_loop_calls obj rd b sc.
Proof. reflexivity. Qed.

Lemma fixed_loop_calls_fits (obj : string) src rd b grid : ∀ e,
  (∀ x, is_set_or_fit (rd x) = false) →
  List.filter is_set_or_fit (fixed_loop_calls obj rd b (scored src e grid)) =
    flat_map (λ g, [SetParams obj g; Fit obj XY_train]) grid.
Proof.
  induction grid as [|g rest IH]; intros e Hrd; [done|].
  cbn [scored flat_map].
  rewrite fixed_loop_calls_cons, List.filter_app, (IH _ Hrd).
  destruct (gt _ b); simpl; by rewrite ?Hrd.
Qed.

Lemma fixed_loop_calls_reads src (obj : string) b sc :
  Forall (λ r, r.1 = match src with
                     | OutOfBag => None
                     | AccuracyOn d => Some d
                     end)
    (score_reads (fixed_loop_calls obj (read_call src obj) b sc)) ∧
  length (score_reads (fixed_loop_calls obj (read_call src obj) b sc)) =
  (length sc + length (List.filter (λ gs : kwargs * spec_float, gt gs.2 b) sc))%nat.
Proof.
  induction sc as [|[g s] sc [IH1 IH2]]; [by split; [constructor|]|].
  rewrite fixed_loop_calls_cons, score_reads_app, length_app.
  split.
  - apply Forall_app. split; [|exact IH1].
    destruct (gt s b); destruct src; simpl; repeat constructor.
  - rewrite IH2. cbn [List.filter snd].
    destruct (gt s b); destruct src; simpl; lia.
Qed.

Lemma scored_length rd e grid : length (scored rd e grid) = length grid.
Proof.
  revert e. induction grid as [|g rest IH]; intros e; [done|].
  simpl. by rewrite IH.
Qed.

(** X4. The boosted cell calls [set_params] and [fit] once for each
    combination, in grid order; every score it reads is computed on the
    training partition, once for each combination and once more each time
    the best score improves. *)
Theorem boost_cell_call_counts grid k :
  ∃ done_, calls (run (boost_cell grid) k).2 = calls k ++ done_ ∧
    List.filter is_set_or_fit done_ =
      flat_map (λ g, [SetParams "boost" g; Fit "boost" XY_train]) grid ∧
    Forall (λ r, r.1 = Some XY_train) (score_reads done_) ∧
    length (score_reads done_) =
      (length grid + improvements f0_5 (boost_scored grid))%nat.
Proof.
  destruct (boost_search_spec grid k) as (k1 & Hrun & _ & _ & Hc & _).
  unfold boost_cell. rewrite run_bind, Hrun, boost_report_shape.
  destruct (sweep_report_keeps "best_boost_score" "best_boost_params" k1)
    as [_ ->].
  eexists. split; [exact Hc|]. simpl. split; [|split].
  - apply loop_calls_fits; by intros [].
  - apply (loop_calls_reads (AccuracyOn XY_train) "boost").
  - rewrite (loop_calls_reads_count (AccuracyOn XY_train) "boost").
    unfold boost_scored at 1. by rewrite scored_length.
Qed.

(** X5. The random-forest cell calls [set_params] and [fit] once for each
    combination, in grid order; it reads out-of-bag scores only, once for
    each combination and once more for each score above 0.5. *)
Theorem rfc_cell_call_counts grid k :
  ∃ done_, calls (run (rfc_cell grid) k).2 = calls k ++ done_ ∧
    List.filter is_set_or_fit done_ =
      flat_map (λ g, [SetParams "rfc" g; Fit "rfc" XY_train]) grid ∧
    Forall (λ r, r.1 = None) (score_reads done_) ∧
    length (score_reads done_) =
      (length grid +
       length (List.filter (λ gs : kwargs * spec_float, gt gs.2 f0_5)
                 (rfc_scored grid)))%nat.
Proof.
  destruct (rfc_search_spec grid k) as (k1 & Hrun & _ & _ & _ & Hc & _).
  unfold rfc_cell. rewrite run_bind, Hrun, rfc_report_shape.
  destruct (sweep_report_keeps "best_rfc_score" "best_rfc_params" k1)
    as [_ ->].
  eexists. split; [exact Hc|]. simpl.
  destruct (fixed_loop_calls_reads OutOfBag "rfc" f0_5 (rfc_scored grid))
    as [Hsrc Hlen].
  split; [|split].
  - apply fixed_loop_calls_fits. by intros [].
  - exact Hsrc.
  - etrans; [exact Hlen|]. unfold rfc_scored at 1. by rewrite scored_length.
Qed.

Lemma last_above_none b (sc : list (kwargs * spec_float)) :
  (∀ g s, (g, s) ∈ sc → gt s b = false) → last_above b None sc = None.
Proof.
  induction sc as [|[g s] sc IH]; intros Hlow; [done|].
  simpl. rewrite (Hlow g s) by apply list_elem_of_here.
  apply IH. intros g' s' Hin. apply (Hlow g' s').
  by apply list_elem_of_further.
Qed.

(** X6. When no out-of-bag score exceeds 0.5 and [best_rfc_score] is bound
    to nothing, the random-forest cell stops at the NameError of
    [best_rfc_score] before it prints anything, and binds neither
    [best_rfc_score] nor [best_rfc_params]. *)
Theorem rfc_cell_no_winner grid k :
  (∀ g s, (g, s) ∈ rfc_scored grid → gt s f0_5 = false) →
  ns k !! "best_rfc_score" = None →
  let r := run (rfc_cell grid) k in
  r.1 = Raise (NameError "best_rfc_score") ∧
  stdout r.2 = stdout k ∧
  ns r.2 !! "best_rfc_score" = None ∧
  ns r.2 !! "best_rfc_params" = ns k !! "best_rfc_params".
Proof.
  intros Hlow Hunbound r.
  destruct (rfc_cell_spec grid k) as (Hr & _ & Hs & Hp & Ho).
  fold r in Hr, Hs, Hp, Ho.
  rewrite (last_above_none _ _ Hlow), Hunbound in Hr, Hs, Ho.
  rewrite (last_above_none _ _ Hlow) in Hp.
  rewrite app_nil_r in Ho. done.
Qed.

(** X7. Running the random-forest cell after the bagged cell puts
    [best_score] back to 0.5, so the score the bagged sweep retained is
    lost; [best_params] and the estimator [bag] are kept. *)
Theorem rfc_cell_resets_bagged_score grid grid' k :
  let k1 := (run (bag_cell grid) k).2 in
  let k2 := (run (rfc_cell grid') k1).2 in
  ns k1 !! "best_score" =
    Some (VFloat (best_so_far f0_5 None (bag_scored grid)).1) ∧
  ns k2 !! "best_score" = Some (VFloat f0_5) ∧
  ns k2 !! "best_params" = ns k1 !! "best_params" ∧
  ns k2 !! "bag" = ns k1 !! "bag".
Proof.
  intros k1 k2.
  destruct (bag_cell_spec grid k) as (_ & Hs & _). fold k1 in Hs.
  split; [exact Hs|]. subst k2. unfold rfc_cell.
  destruct (search_fixed RandomForestClassifier rfc_kwargs OutOfBag
              "rfc" "best_score" "best_rfc_score" "best_rfc_params" grid' k1)
    as (k' & Hrun & Ht & _ & _ & Hx & _); try done.
  rewrite rfc_search_shape, run_bind, Hrun, rfc_report_shape.
  destruct (sweep_report_keeps "best_rfc_score" "best_rfc_params" k') as [-> _].
  split; [exact Ht|]. split; by apply Hx.
Qed.


End MoreSweeps.

(** * The cells that use what a sweep retained *)

Section SessionFacts.
Context {sk : Sklearn}.
Import PyFloat PyFloatFacts.

Lemma exec_bind {A B} (m : stmt A) (f : A → stmt B) n :
  exec (m ≫= f) n =
  match exec m n with
  | (Ok a, n') => exec (f a) n'
  | (Failed e, n') => (Failed e, n')
  end.
Proof. reflexivity. Qed.

Lemma exec_seq {A B} (m : stmt A) (f : A → stmt B) n a n' r :
  exec m n = (Ok a, n') → exec (f a) n' = r → exec (m ≫= f) n = r.
Proof. intros Hm Hf. rewrite exec_bind, Hm. exact Hf. Qed.

Lemma exec_fails {A B} (m : stmt A) (f : A → stmt B) n e n' :
  exec m n = (Failed e, n') → exec (m ≫= f) n = (Failed e, n').
Proof. intros Hm. by rewrite exec_bind, Hm. Qed.

Lemma exec_print_text s n :
  exec (print_text s) n =
  (Ok tt, Session (globals n) (performed n) (page n ++ [Text s])).
Proof. reflexivity. Qed.

Lemma exec_print_rounded label x digits n :
  exec (print_rounded label (VFloat x) digits) n =
  (Ok tt,
   Session (globals n) (performed n) (page n ++ [Rounded label digits x])).
Proof. reflexivity. Qed.

Lemma exec_lift_load x n v :
  globals n !! x = Some v → exec (lift (load x)) n = (Ok v, n).
Proof.
  intros Hx. destruct n as [gl pf pg]. simpl in *.
  rewrite Hx. simpl. by rewrite app_nil_r.
Qed.

Lemma exec_lift_load_unbound x n :
  globals n !! x = None →
  exec (lift (load x)) n = (Failed (Builtin (NameError x)), n).
Proof.
  intros Hx. destruct n as [gl pf pg]. simpl in *.
  rewrite Hx. simpl. by rewrite app_nil_r.
Qed.

Lemma exec_lift_new x c kw n :
  exec (lift (new x c kw)) n =
  (Ok tt, Session (<[x := VEst (construct c kw)]> (globals n))
            (performed n ++ [Construct c kw]) (page n)).
Proof. simpl. by rewrite app_nil_r. Qed.

Lemma exec_lift_fit obj d n e :
  globals n !! obj = Some (VEst e) →
  exec (lift (call_fit obj d)) n =
  (Ok tt, Session (<[obj := VEst (fit d e)]> (globals n))
            (performed n ++ [Fit obj d]) (page n)).
Proof.
  intros Hobj. unfold lift. cbn [exec].
  rewrite (run_call_fit obj d _ e) by done. simpl. by rewrite app_nil_r.
Qed.

Lemma exec_lift_read_score src obj n e :
  globals n !! obj = Some (VEst e) →
  exec (lift (read_score src obj)) n =
  (Ok (VFloat (score_of src e)),
   Session (globals n) (performed n ++ [read_call src obj (score_of src e)])
     (page n)).
Proof.
  intros Hobj. unfold lift. cbn [exec].
  rewrite (run_read_score src obj _ e) by done. simpl. by rewrite app_nil_r.
Qed.

Lemma exec_lift_score obj d n e :
  globals n !! obj = Some (VEst e) →
  exec (lift (call_score obj d)) n =
  (Ok (VFloat (score d e)),
   Session (globals n) (performed n ++ [Score obj d (score d e)]) (page n)).
Proof. apply (exec_lift_read_score (AccuracyOn d)). Qed.

Lemma bag_results_shape :
  bag_results = model_results "Bagged tree Best Model" "bag" (AccuracyOn XY_train).
Proof. reflexivity. Qed.

Lemma boost_results_shape :
  boost_results =
  model_results "Boosted tree Best Model" "boost" (AccuracyOn XY_train).
Proof. reflexivity. Qed.

Lemma rfc_results_shape :
  rfc_results = model_results "Random Forest Best Model" "rfc" OutOfBag.
Proof. reflexivity. Qed.

(** A cell of results in a session where [obj] is bound to an estimator. *)
Lemma model_results_exec title obj src n e :
  globals n !! obj = Some (VEst e) →
  exec (model_results title obj src) n =
  (Ok tt,
   Session (<[obj := VEst (fit XY_all (fit XY_train e))]> (globals n))
     (performed n ++ results_calls obj src e)
     (page n ++ results_page title src e)).
Proof.
  intros Hobj. unfold model_results, results_calls, results_page.
  do 2 (eapply exec_seq; [apply exec_print_text|]; cbn [globals performed page]).
  eapply exec_seq; [by apply exec_lift_fit|]; cbn [globals performed page].
  eapply exec_seq; [apply exec_lift_read_score, lookup_insert_eq|];
    cbn [globals performed page].
  eapply exec_seq; [apply exec_print_rounded|]; cbn [globals performed page].
  do 3 (eapply exec_seq; [apply exec_lift_score, lookup_insert_eq|];
        cbn [globals performed page];
        eapply exec_seq; [apply exec_print_rounded|];
        cbn [globals performed page]).
  eapply exec_seq; [apply exec_lift_fit, lookup_insert_eq|];
    cbn [globals performed page].
  eapply exec_seq; [apply exec_lift_score, lookup_insert_eq|];
    cbn [globals performed page].
  rewrite exec_print_rounded. cbn [globals performed page].
  rewrite !insert_insert_eq, <- !app_assoc. reflexivity.
Qed.

(** A sweep cell that raises the threshold, run inside a session, when the
    sweep has a winner. *)
Lemma exec_lift_sweep cls kw src (obj thr wp : string) grid n g s :
  obj ≠ thr → obj ≠ wp → thr ≠ wp →
  best_so_far f0_5 None (scored (score_of src) (construct cls kw) grid)
    = (s, Some g) →
  ∃ n1,
    exec (lift (sweep_search cls kw src obj thr thr wp grid;;
                sweep_report thr wp)) n = (Ok tt, n1) ∧
    globals n1 !! thr = Some (VFloat s) ∧
    globals n1 !! wp = Some (VDict g) ∧
    performed n1 =
      performed n ++ Construct cls kw
        :: loop_calls obj (read_call src obj) f0_5
             (scored (score_of src) (construct cls kw) grid) ∧
    page n1 = page n ++ [Shown (Print_ "OOB: %0.5f" (VFloat s));
                         Shown (Print_ "Best parameters:" (VDict g))].
Proof.
  intros Hot Hop Htp Hbest.
  destruct (search_raising cls kw src obj thr wp grid
              (Kernel (globals n) (performed n) []) Hot Hop Htp)
    as (k1 & Hrun & Hs & Hp & _ & Hc & Ho).
  rewrite Hbest in Hs, Hp. simpl in Hs, Hp, Hc, Ho.
  eexists. split; [|split; [|split; [|split]]].
  - unfold lift. cbn [exec].
    rewrite run_bind, Hrun, sweep_report_run, Hs, Hp. cbn. reflexivity.
  - exact Hs.
  - exact Hp.
  - exact Hc.
  - simpl. by rewrite Ho.
Qed.

End SessionFacts.

Section Reports.
Context {sk : Sklearn}.
Import PyFloat PyFloatFacts.

(** The combination a raising sweep retains, when some score exceeds
    0.5. *)
Lemma winner_of (sc : list (kwargs * spec_float)) :
  (∃ g s, (g, s) ∈ sc ∧ gt s f0_5 = true) →
  ∃ i g s,
    best_so_far f0_5 None sc = (s, Some g) ∧
    sc !! i = Some (g, s) ∧
    gt s f0_5 = true ∧
    (∀ g' s', (g', s') ∈ sc → gt s' s = false) ∧
    (∀ j g', (j < i)%nat → sc !! j ≠ Some (g', s)).
Proof.
  intros (g0 & s0 & Hin & Hgt).
  destruct (best_so_far f0_5 None sc) as [r [g|]] eqn:Hbest.
  - destruct (best_so_far_first f0_5 sc g) as (Hr & i & Hi & Hfirst);
      [by rewrite Hbest|].
    rewrite Hbest in Hr, Hi, Hfirst. simpl in Hr, Hi, Hfirst.
    exists i, g, r. repeat split; try done.
    intros g' s' Hin'.
    pose proof (best_so_far_max f0_5 None sc g' s' Hin') as Hmax.
    by rewrite Hbest in Hmax.
  - pose proof (best_so_far_none f0_5 sc) as Hnone.
    rewrite Hbest in Hnone. by rewrite (Hnone eq_refl _ _ Hin) in Hgt.
Qed.

Lemma scored_member rd e grid i g s :
  scored rd e grid !! i = Some (g, s) → g ∈ grid.
Proof.
  intros Hi. rewrite <- (scored_combinations rd e grid).
  apply list_elem_of_fmap. exists (g, s). split; [done|].
  by apply list_elem_of_lookup_2 with i.
Qed.

(** X9. The bagged sweep, the cell that builds the model to report and
    the cell of results, run in this order on a grid whose combinations
    all give a leaf size and a number of trees, when some out-of-bag score
    exceeds 0.5: the three cells end normally, and the model reported is a
    new estimator, constructed with the arguments of the sweep's estimator
    and the leaf size and the number of trees of the first combination
    that has the highest out-of-bag score.  It is fitted on the training
    partition for the first four figures and then on all the data, and the
    figure printed as training accuracy is its accuracy on the training
    partition, not an out-of-bag score. *)
Theorem bag_report_refits_winner grid n :
  (∀ g, g ∈ grid →
     is_Some (g !! "min_samples_leaf") ∧ is_Some (g !! "n_estimators")) →
  (∃ g s, (g, s) ∈ bag_scored grid ∧ gt s f0_5 = true) →
  ∃ i g s leaf trees n',
    bag_scored grid !! i = Some (g, s) ∧
    (∀ g' s', (g', s') ∈ bag_scored grid → gt s' s = false) ∧
    (∀ j g', (j < i)%nat → bag_scored grid !! j ≠ Some (g', s)) ∧
    g !! "min_samples_leaf" = Some leaf ∧
    g !! "n_estimators" = Some trees ∧
    exec (lift (bag_cell grid);; bag_rebuild;; bag_results) n = (Ok tt, n') ∧
    let e := construct RandomForestClassifier (bag_final_kwargs leaf trees) in
    globals n' !! "bag" = Some (VEst (fit XY_all (fit XY_train e))) ∧
    performed n' =
      performed n
      ++ Construct RandomForestClassifier bag_kwargs
         :: loop_calls "bag" (GetOob "bag") f0_5 (bag_scored grid)
      ++ Construct RandomForestClassifier (bag_final_kwargs leaf trees)
         :: results_calls "bag" (AccuracyOn XY_train) e ∧
    page n' =
      page n
      ++ [Shown (Print_ "OOB: %0.5f" (VFloat s));
          Shown (Print_ "Best parameters:" (VDict g))]
      ++ results_page "Bagged tree Best Model" (AccuracyOn XY_train) e.
Proof.
  intros Hkeys Hsome.
  destruct (winner_of _ Hsome) as (i & g & s & Hbest & Hi & _ & Hmax & Hfirst).
  destruct (Hkeys g (scored_member _ _ _ _ _ _ Hi))
    as [[leaf Hleaf] [trees Htrees]].
  destruct (exec_lift_sweep RandomForestClassifier bag_kwargs OutOfBag
              "bag" "best_score" "best_params" grid n g s) as
    (n1 & Hrun & _ & Hp & Hc & Hpg); [done..|].
  exists i, g, s, leaf, trees. eexists.
  split; [exact Hi|]. split; [exact Hmax|]. split; [exact Hfirst|].
  split; [exact Hleaf|]. split; [exact Htrees|].
  split; [|cbv zeta; split; [|split]].
  - eapply exec_seq; [exact Hrun|].
    eapply exec_seq.
    + unfold bag_rebuild.
      eapply exec_seq; [by apply exec_lift_load|].
      eapply exec_seq; [simpl; rewrite Hleaf; reflexivity|].
      eapply exec_seq; [by apply exec_lift_load|].
      eapply exec_seq; [simpl; rewrite Htrees; reflexivity|].
      apply exec_lift_new.
    + rewrite bag_results_shape.
      apply (model_results_exec _ _ _ _
               (construct RandomForestClassifier (bag_final_kwargs leaf trees))).
      simpl. apply lookup_insert_eq.
  - simpl. apply lookup_insert_eq.
  - simpl. rewrite Hc, <- !app_assoc. reflexivity.
  - simpl. rewrite Hpg, <- !app_assoc. reflexivity.
Qed.

(** X10. The same for the boosted sweep, which selects on the accuracy on
    the training partition: the model reported is constructed with the
    depth, the number of trees and the learning rate of the first
    combination that has the highest training accuracy, with
    [random_state=1], and with none of the other arguments of the sweep's
    estimator. *)
Theorem boost_report_refits_winner grid n :
  (∀ g, g ∈ grid →
     is_Some (g !! "max_depth") ∧ is_Some (g !! "n_estimators") ∧
     is_Some (g !! "learning_rate")) →
  (∃ g s, (g, s) ∈ boost_scored grid ∧ gt s f0_5 = true) →
  ∃ i g s depth trees rate n',
    boost_scored grid !! i = Some (g, s) ∧
    (∀ g' s', (g', s') ∈ boost_scored grid → gt s' s = false) ∧
    (∀ j g', (j < i)%nat → boost_scored grid !! j ≠ Some (g', s)) ∧
    g !! "max_depth" = Some depth ∧
    g !! "n_estimators" = Some trees ∧
    g !! "learning_rate" = Some rate ∧
    exec (lift (boost_cell grid);; boost_rebuild;; boost_results) n
      = (Ok tt, n') ∧
    let kw := boost_final_kwargs depth trees rate in
    let e := construct GradientBoostingClassifier kw in
    dom kw = {["max_depth"; "n_estimators"; "learning_rate"; "random_state"]} ∧
    globals n' !! "boost" = Some (VEst (fit XY_all (fit XY_train e))) ∧
    performed n' =
      performed n
      ++ Construct GradientBoostingClassifier boost_kwargs
         :: loop_calls "boost" (Score "boost" XY_train) f0_5 (boost_scored grid)
      ++ Construct GradientBoostingClassifier kw
         :: results_calls "boost" (AccuracyOn XY_train) e ∧
    page n' =
      page n
      ++ [Shown (Print_ "OOB: %0.5f" (VFloat s));
          Shown (Print_ "Best parameters:" (VDict g))]
      ++ results_page "Boosted tree Best Model" (AccuracyOn XY_train) e.
Proof.
  intros Hkeys Hsome.
  destruct (winner_of _ Hsome) as (i & g & s & Hbest & Hi & _ & Hmax & Hfirst).
  destruct (Hkeys g (scored_member _ _ _ _ _ _ Hi))
    as ([depth Hdepth] & [trees Htrees] & [rate Hrate]).
  destruct (exec_lift_sweep GradientBoostingClassifier boost_kwargs
              (AccuracyOn XY_train)
              "boost" "best_boost_score" "best_boost_params" grid n g s) as
    (n1 & Hrun & _ & Hp & Hc & Hpg); [done..|].
  exists i, g, s, depth, trees, rate. eexists.
  split; [exact Hi|]. split; [exact Hmax|]. split; [exact Hfirst|].
  split; [exact Hdepth|]. split; [exact Htrees|]. split; [exact Hrate|].
  split; [|cbv zeta; split; [|split; [|split]]].
  - eapply exec_seq; [exact Hrun|].
    eapply exec_seq.
    + unfold boost_rebuild.
      eapply exec_seq; [by apply exec_lift_load|].
      eapply exec_seq; [simpl; rewrite Hdepth; reflexivity|].
      eapply exec_seq; [by apply exec_lift_load|].
      eapply exec_seq; [simpl; rewrite Htrees; reflexivity|].
      eapply exec_seq; [by apply exec_lift_load|].
      eapply exec_seq; [simpl; rewrite Hrate; reflexivity|].
      apply exec_lift_new.
    + rewrite boost_results_shape.
      apply (model_results_exec _ _ _ _
               (construct GradientBoostingClassifier
                  (boost_final_kwargs depth trees rate))).
      simpl. apply lookup_insert_eq.
  - unfold boost_final_kwargs. rewrite !dom_insert_L, dom_empty_L.
    set_solver.
  - simpl. apply lookup_insert_eq.
  - simpl. rewrite Hc, <- !app_assoc. reflexivity.
  - simpl. rewrite Hpg, <- !app_assoc. reflexivity.
Qed.

(** X11. The cell that builds the random forest to report and its cell of
    results never fail and read nothing that the sweep retained: in any
    session they report the estimator of the written-out hyperparameters,
    and the figure printed as training accuracy is its out-of-bag score
    after the fit on the training partition. *)
Theorem rfc_report_ignores_sweep n :
  let e := construct RandomForestClassifier rfc_final_kwargs in
  exec (rfc_rebuild;; rfc_results) n =
  (Ok tt,
   Session (<["rfc" := VEst (fit XY_all (fit XY_train e))]> (globals n))
     (performed n ++ Construct RandomForestClassifier rfc_final_kwargs
        :: results_calls "rfc" OutOfBag e)
     (page n ++ results_page "Random Forest Best Model" OutOfBag e)).
Proof.
  intros e.
  eapply exec_seq; [apply exec_lift_new|].
  rewrite rfc_results_shape, (model_results_exec _ _ _ _ e)
    by (simpl; apply lookup_insert_eq).
  simpl. rewrite insert_insert_eq, <- !app_assoc. reflexivity.
Qed.

(** X12. When the cell that builds the bagged model fails, the session is
    as it was, [bag] still names the estimator of the sweep, and the
    failure is a [NameError] when [best_params] is unbound, a [KeyError]
    for the first of the two keys that the retained combination lacks, and
    a [TypeError] when [best_params] is a number. *)
Theorem bag_rebuild_failure n err n' :
  (∀ e, globals n !! "best_params" ≠ Some (VEst e)) →
  exec bag_rebuild n = (Failed err, n') →
  n' = n ∧
  match globals n !! "best_params" with
  | None => err = Builtin (NameError "best_params")
  | Some (VDict g) =>
      match g !! "min_samples_leaf" with
      | None => err = KeyError "min_samples_leaf"
      | Some _ => err = KeyError "n_estimators" ∧ g !! "n_estimators" = None
      end
  | Some _ => err = Builtin TypeError
  end.
Proof.
  intros Hest. unfold bag_rebuild.
  destruct (globals n !! "best_params") as [v|] eqn:Hbp.
  - rewrite exec_bind, (exec_lift_load _ _ v Hbp).
    destruct v as [x|g|e]; [| |by destruct (Hest e)].
    + simpl. intros [= <- <-]. done.
    + rewrite exec_bind. cbn [subscript].
      destruct (g !! "min_samples_leaf") as [leaf|] eqn:Hleaf.
      * cbn [exec mret stmt_ret].
        rewrite exec_bind, (exec_lift_load _ _ _ Hbp), exec_bind.
        cbn [subscript].
        destruct (g !! "n_estimators") as [trees|] eqn:Htrees.
        -- cbn [exec mret stmt_ret]. rewrite exec_lift_new. done.
        -- simpl. intros [= <- <-]. done.
      * simpl. intros [= <- <-]. done.
  - rewrite exec_bind, (exec_lift_load_unbound _ _ Hbp).
    intros [= <- <-]. done.
Qed.

End Reports.

(** * The XGBoost notebook *)

Section FrameFacts.
Context {series : Type} (astype_category : series → series).

Lemma getitem_in (X : frame) col :
  col ∈ columns X → ∃ s : series, getitem X col = Ok s.
Proof.
  induction X as [|[c s] rest IH]; simpl.
  - by intros ?%elem_of_nil.
  - intros Hin. destruct (decide (c = col)) as [->|Hne]; [by exists s|].
    apply IH. apply elem_of_cons in Hin as [?|?]; [congruence|done].
Qed.

Lemma getitem_not_in (X : frame) col :
  col ∉ columns X → getitem (series := series) X col = Failed (KeyError col).
Proof.
  induction X as [|[c s] rest IH]; simpl; [done|].
  intros Hin. destruct (decide (c = col)) as [->|Hne].
  - destruct Hin. apply list_elem_of_here.
  - apply IH. intros ?. apply Hin. by apply list_elem_of_further.
Qed.

Lemma columns_retype cols (X : frame) :
  columns (retype astype_category cols X) = columns X.
Proof.
  unfold columns, retype. rewrite <- list_fmap_compose.
  apply list_fmap_ext. intros i [c s] _. simpl. by destruct (decide _).
Qed.

Lemma retype_ext cols cols' (X : frame) :
  (∀ c, c ∈ columns X → c ∈ cols ↔ c ∈ cols') →
  retype astype_category cols X = retype astype_category cols' X.
Proof.
  intros Hsame. unfold retype. apply list_fmap_ext. intros i [c s] Hi.
  simpl. assert (c ∈ columns X) as Hc.
  { apply list_elem_of_fmap. exists (c, s). split; [done|].
    by apply list_elem_of_lookup_2 with i. }
  specialize (Hsame c Hc).
  destruct (decide (c ∈ cols)), (decide (c ∈ cols')); tauto.
Qed.

Lemma retype_none cols (X : frame) :
  (∀ c, c ∈ columns X → c ∉ cols) → retype astype_category cols X = X.
Proof.
  intros Hnone. induction X as [|[c s] rest IH]; [done|].
  unfold retype in *. cbn [fmap list_fmap]. simpl.
  destruct (decide (c ∈ cols)) as [Hin|_].
  - destruct (Hnone c); [apply list_elem_of_here | done].
  - f_equal. apply IH. intros c' Hc'. apply Hnone.
    by apply list_elem_of_further.
Qed.

Lemma retype_retype col cols (X : frame) :
  col ∉ cols →
  retype astype_category cols (retype astype_category [col] X)
  = retype astype_category (col :: cols) X.
Proof.
  intros Hnew. unfold retype. rewrite <- list_fmap_compose.
  apply list_fmap_ext. intros i [c s] _. simpl.
  destruct (decide (c ∈ [col])) as [Hc|Hc]; simpl.
  - apply list_elem_of_singleton in Hc as ->.
    destruct (decide (col ∈ cols)) as [Hin|_]; [by destruct Hnew|].
    destruct (decide (col ∈ col :: cols)) as [_|Hn]; [done|].
    destruct Hn. apply list_elem_of_here.
  - destruct (decide (c ∈ cols)) as [Hin|Hin];
      destruct (decide (c ∈ col :: cols)) as [Hin'|Hin']; try done.
    + destruct Hin'. by apply list_elem_of_further.
    + apply elem_of_cons in Hin' as [->|?]; [|done].
      destruct Hc. apply list_elem_of_here.
Qed.

(** One assignment of the loop converts the column it names and no other. *)
Lemma setitem_retype (X : frame) col s :
  NoDup (columns X) →
  getitem X col = Ok s →
  setitem X col (astype_category s) = retype astype_category [col] X.
Proof.
  induction X as [|[c s'] rest IH]; simpl; [done|].
  intros [Hc Hrest]%NoDup_cons.
  unfold retype. cbn [fmap list_fmap]. simpl.
  destruct (decide (c = col)) as [->|Hne].
  - intros [= ->].
    destruct (decide (col ∈ [col])) as [_|Hn];
      [|destruct Hn; apply list_elem_of_here].
    f_equal. symmetry. apply retype_none.
    intros c Hin ->%list_elem_of_singleton. done.
  - intros Hget.
    destruct (decide (c ∈ [col])) as [Hin|_];
      [by apply list_elem_of_singleton in Hin|].
    f_equal. by apply IH.
Qed.

Lemma convert_ok cat_vars : ∀ X campaign_test : frame,
  NoDup (columns X) → NoDup (columns campaign_test) → NoDup cat_vars →
  (∀ c, c ∈ cat_vars → c ∈ columns X ∧ c ∈ columns campaign_test) →
  convert astype_category cat_vars X campaign_test =
  (Ok tt, (retype astype_category cat_vars X,
           retype astype_category cat_vars campaign_test)).
Proof.
  induction cat_vars as [|col rest IH]; intros X T HX HT Hcv Hin.
  - simpl. rewrite !retype_none; [done|..]; intros c _; apply not_elem_of_nil.
  - apply NoDup_cons in Hcv as [Hcol Hrest].
    destruct (Hin col (list_elem_of_here _ _)) as [HcX HcT].
    destruct (getitem_in X col HcX) as [s Hs].
    destruct (getitem_in T col HcT) as [t Ht].
    cbn [convert]. rewrite Hs, Ht.
    rewrite (setitem_retype X col s HX Hs), (setitem_retype T col t HT Ht).
    rewrite IH; rewrite ?columns_retype; try done.
    + by rewrite !retype_retype.
    + intros c Hc. apply Hin. by apply list_elem_of_further.
Qed.

Lemma convert_stops pre col post (X campaign_test : frame) :
  NoDup (columns X) → NoDup (columns campaign_test) →
  NoDup (pre ++ col :: post) →
  (∀ c, c ∈ pre → c ∈ columns X ∧ c ∈ columns campaign_test) →
  col ∈ columns X → col ∉ columns campaign_test →
  convert astype_category (pre ++ col :: post) X campaign_test =
  (Failed (KeyError col),
   (retype astype_category (col :: pre) X,
    retype astype_category pre campaign_test)).
Proof.
  revert X campaign_test.
  induction pre as [|c pre IH]; intros X T HX HT Hcv Hin HcX HcT.
  - destruct (getitem_in X col HcX) as [s Hs].
    cbn [app convert]. rewrite Hs, (getitem_not_in T col HcT).
    rewrite (setitem_retype X col s HX Hs), (retype_none _ T); [done|].
    intros c _. apply not_elem_of_nil.
  - cbn [app] in Hcv. apply NoDup_cons in Hcv as [Hc Hrest].
    destruct (Hin c (list_elem_of_here _ _)) as [HinX HinT].
    destruct (getitem_in X c HinX) as [s Hs].
    destruct (getitem_in T c HinT) as [t Ht].
    cbn [app convert]. rewrite Hs, Ht.
    rewrite (setitem_retype X c s HX Hs), (setitem_retype T c t HT Ht).
    rewrite IH; rewrite ?columns_retype; try done.
    + rewrite !retype_retype;
        [|intros Hc'; apply Hc; rewrite elem_of_app, elem_of_cons;
          rewrite ?elem_of_cons in Hc'; tauto..].
      f_equal. f_equal. apply retype_ext. intros c' _.
      rewrite !elem_of_cons. tauto.
    + intros c' Hc'. apply Hin. by apply list_elem_of_further.
Qed.

End FrameFacts.

Section Conversion.
Context {series : Type} (astype_category : series → series).

Lemma is_cat_vars_in_order (X : frame (series := series)) :
  is_cat_vars X (cat_vars_in_order X).
Proof.
  split.
  - apply NoDup_filter, NoDup_remove_dups.
  - intros c. unfold cat_vars_in_order.
    by rewrite list_elem_of_filter, elem_of_remove_dups, (comm and).
Qed.

(** X13. When the names of the columns of [X] and of [campaign_test] do
    not repeat and every column of [X] that is not numerical is also a
    column of [campaign_test], the loop ends normally whatever the order
    in which the set of names is listed, and the frames it leaves do not
    depend on that order: in [X] exactly the columns outside [num_vars]
    are converted, in [campaign_test] exactly those that are such columns
    of [X]; the columns keep their places, and a name of [num_vars] that
    is no column is not an error. *)
Theorem convert_categorical (X campaign_test : frame) cat_vars :
  NoDup (columns X) → NoDup (columns campaign_test) →
  is_cat_vars X cat_vars →
  (∀ c, c ∈ columns X → c ∉ num_vars → c ∈ columns campaign_test) →
  convert astype_category cat_vars X campaign_test =
  (Ok tt,
   ((λ cs, if decide (cs.1 ∈ num_vars) then cs
           else (cs.1, astype_category cs.2)) <$> X,
    (λ cs, if decide (cs.1 ∈ columns X ∧ cs.1 ∉ num_vars)
           then (cs.1, astype_category cs.2) else cs) <$> campaign_test)).
Proof.
  intros HX HT [Hnodup Hcv] Hboth.
  rewrite convert_ok; try done.
  - f_equal. f_equal; unfold retype; apply list_fmap_ext; intros i [c s] Hi;
      simpl.
    + assert (c ∈ columns X) as Hc.
      { apply list_elem_of_fmap. exists (c, s). split; [done|].
        by apply list_elem_of_lookup_2 with i. }
      specialize (Hcv c).
      destruct (decide (c ∈ cat_vars)), (decide (c ∈ num_vars)); tauto.
    + specialize (Hcv c).
      destruct (decide (c ∈ cat_vars)),
        (decide (c ∈ columns X ∧ c ∉ num_vars)); tauto.
  - intros c Hc. apply Hcv in Hc as [HcX Hnum]. split; [done|].
    by apply Hboth.
Qed.

(** X14. When [col] is the first name listed that is no column of
    [campaign_test], the loop stops there with the KeyError of [col]:
    [X] has by then the columns listed before [col] and [col] itself
    converted, [campaign_test] only the columns listed before [col], and
    the names listed after [col] are converted in neither frame. *)
Theorem convert_missing_column (X campaign_test : frame) pre col post :
  NoDup (columns X) → NoDup (columns campaign_test) →
  is_cat_vars X (pre ++ col :: post) →
  (∀ c, c ∈ pre → c ∈ columns campaign_test) →
  col ∉ columns campaign_test →
  convert astype_category (pre ++ col :: post) X campaign_test =
  (Failed (KeyError col),
   (retype astype_category (col :: pre) X,
    retype astype_category pre campaign_test)).
Proof.
  intros HX HT [Hnodup Hcv] Hpre Hcol.
  apply convert_stops; try done.
  - intros c Hc. split; [|by apply Hpre].
    apply Hcv. apply elem_of_app. by left.
  - apply Hcv. apply elem_of_app. right. apply list_elem_of_here.
Qed.

End Conversion.

Section Estimators.

Lemma keys_within (m : kwargs) (keys : list string) :
  map_Forall (λ k _, k ∈ keys) m → ∀ k, is_Some (m !! k) → k ∈ keys.
Proof. intros Hall k [v Hk]. exact (Hall k v Hk). Qed.

(** X15. When the keys of [best_params] are among those of
    [param_search], the construction of [xgb_model] is no TypeError, and
    its keyword arguments are [best_params] and the arguments of the
    estimator that was searched, except two: [xgb_model] is given no
    [random_state], where the search ran with 391, and no [n_jobs]. *)
Theorem xgb_model_not_seeded (best_params : kwargs) :
  (∀ k, is_Some (best_params !! k) → k ∈ param_search_keys) →
  ∃ kw,
    xgb_model_kwargs best_params = Ok kw ∧
    (∀ k, k ≠ "random_state" → k ≠ "n_jobs" →
       kw !! k = (best_params ∪ xgb_clf_kwargs) !! k) ∧
    kw !! "random_state" = None ∧
    kw !! "n_jobs" = None ∧
    (best_params ∪ xgb_clf_kwargs) !! "random_state" = Some (PInt 391) ∧
    (best_params ∪ xgb_clf_kwargs) !! "n_jobs" = Some (PInt (-2)).
Proof.
  intros Hkeys.
  assert (∀ k, k ∉ param_search_keys → best_params !! k = None) as Hnone.
  { intros k Hk. destruct (best_params !! k) eqn:Hbk; [|done].
    destruct Hk. apply Hkeys. by rewrite Hbk. }
  assert (best_params !! "tree_method" = None) as Htm
    by (apply Hnone; by apply (bool_decide_eq_true_1 _)).
  assert (best_params !! "objective" = None) as Hob
    by (apply Hnone; by apply (bool_decide_eq_true_1 _)).
  assert (best_params !! "eval_metric" = None) as Hem
    by (apply Hnone; by apply (bool_decide_eq_true_1 _)).
  assert (best_params !! "enable_categorical" = None) as Hec
    by (apply Hnone; by apply (bool_decide_eq_true_1 _)).
  assert (best_params !! "random_state" = None) as Hrs
    by (apply Hnone; by apply (bool_decide_eq_true_1 _)).
  assert (best_params !! "n_jobs" = None) as Hnj
    by (apply Hnone; by apply (bool_decide_eq_true_1 _)).
  eexists. split; [|split; [|split; [|split; [|split]]]].
  - unfold xgb_model_kwargs. cbn [call_kwargs].
    rewrite Htm, !lookup_insert_ne, Hob, Hem, Hec by done. reflexivity.
  - intros k Hk1 Hk2. rewrite lookup_union. unfold xgb_clf_kwargs.
    rewrite !lookup_insert, lookup_empty.
    repeat case_decide; subst; rewrite ?Htm, ?Hob, ?Hem, ?Hec; try done.
    by destruct (best_params !! k).
  - by rewrite !lookup_insert_ne.
  - by rewrite !lookup_insert_ne.
  - rewrite lookup_union, Hrs. reflexivity.
  - rewrite lookup_union, Hnj. reflexivity.
Qed.

End Estimators.

(** * The statements above on concrete scores *)

Lemma some_score_above (sc : list (kwargs * spec_float)) g s :
  (g, s) ∈ sc → PyFloat.gt s PyFloat.f0_5 = true →
  ∃ g s, (g, s) ∈ sc ∧ PyFloat.gt s PyFloat.f0_5 = true.
Proof. intros Hin Hgt. by exists g, s. Qed.

Lemma all_members {A} (P : A → Prop) (l : list A) :
  Forall P l → ∀ x, x ∈ l → P x.
Proof. intros Hall. by apply Forall_forall. Qed.

Section BaggedRuns.
Import PyFloat.
#[local] Existing Instance Toy.sk_only_3.

(** The grid of the notebook with a library in which leaf size 3 scores
    0.90 and every other 0.30. *)
Lemma bag_cell_reports_first_maximum_witness :
  let grid := ParameterGrid bag_hyperparam_grid in
  ∃ i g s,
    bag_scored grid !! i = Some (g, s) ∧
    gt s f0_5 = true ∧
    (∀ g' s', (g', s') ∈ bag_scored grid → gt s' s = false) ∧
    (∀ j g', (j < i)%nat → bag_scored grid !! j ≠ Some (g', s)) ∧
    (run (bag_cell grid) Toy.fresh).1 = Done tt ∧
    stdout (run (bag_cell grid) Toy.fresh).2 =
      stdout Toy.fresh ++ [Print_ "OOB: %0.5f" (VFloat s);
                           Print_ "Best parameters:" (VDict g)].
Proof.
  apply (bag_cell_reports_first_maximum
           (ParameterGrid bag_hyperparam_grid) Toy.fresh).
  apply (some_score_above _ (Toy.leaf_trees 3 500) f0_9); by_evaluation.
Defined.

Lemma bag_report_refits_winner_witness :
  let grid := ParameterGrid bag_hyperparam_grid in
  ∃ i g s leaf trees n',
    bag_scored grid !! i = Some (g, s) ∧
    (∀ g' s', (g', s') ∈ bag_scored grid → gt s' s = false) ∧
    (∀ j g', (j < i)%nat → bag_scored grid !! j ≠ Some (g', s)) ∧
    g !! "min_samples_leaf" = Some leaf ∧
    g !! "n_estimators" = Some trees ∧
    exec (lift (bag_cell grid);; bag_rebuild;; bag_results) Toy.blank
      = (Ok tt, n') ∧
    let e := construct RandomForestClassifier (bag_final_kwargs leaf trees) in
    globals n' !! "bag" = Some (VEst (fit XY_all (fit XY_train e))) ∧
    performed n' =
      performed Toy.blank
      ++ Construct RandomForestClassifier bag_kwargs
         :: loop_calls "bag" (GetOob "bag") f0_5 (bag_scored grid)
      ++ Construct RandomForestClassifier (bag_final_kwargs leaf trees)
         :: results_calls "bag" (AccuracyOn XY_train) e ∧
    page n' =
      page Toy.blank
      ++ [Shown (Print_ "OOB: %0.5f" (VFloat s));
          Shown (Print_ "Best parameters:" (VDict g))]
      ++ results_page "Bagged tree Best Model" (AccuracyOn XY_train) e.
Proof.
  apply (bag_report_refits_winner
           (ParameterGrid bag_hyperparam_grid) Toy.blank).
  - apply all_members. by_evaluation.
  - apply (some_score_above _ (Toy.leaf_trees 3 500) f0_9); by_evaluation.
Defined.

(** Two runs over a grid whose second combination scores 0.90, from a
    kernel where nothing is bound and from the middle of another loop. *)
Lemma bag_cell_two_runs_witness :
  let grid := [Toy.leaf_is 1; Toy.leaf_is 3] in
  let r := run (bag_cell grid) Toy.fresh in
  let r' := run (bag_cell grid) Toy.mid_loop in
  ns r'.2 !! "best_score" = ns r.2 !! "best_score" ∧
  r'.1 = r.1 ∧
  ns r'.2 !! "best_params" = ns r.2 !! "best_params" ∧
  ∃ out, stdout r.2 = stdout Toy.fresh ++ out ∧
         stdout r'.2 = stdout Toy.mid_loop ++ out.
Proof.
  destruct (bag_cell_two_runs [Toy.leaf_is 1; Toy.leaf_is 3]
              Toy.fresh Toy.mid_loop) as [Hscore Hrest].
  split; [exact Hscore|]. apply Hrest. left.
  apply (some_score_above _ (Toy.leaf_is 3) f0_9); by_evaluation.
Defined.

(** A sweep over one combination that gives no number of trees: the cell
    that builds the model fails on that key and changes nothing. *)
Lemma bag_rebuild_failure_witness :
  let n := (exec (lift (bag_cell [Toy.leaf_is 3])) Toy.blank).2 in
  n = n ∧
  match globals n !! "best_params" with
  | None => KeyError "n_estimators" = Builtin (NameError "best_params")
  | Some (VDict g) =>
      match g !! "min_samples_leaf" with
      | None => KeyError "n_estimators" = KeyError "min_samples_leaf"
      | Some _ => KeyError "n_estimators" = KeyError "n_estimators" ∧
                  g !! "n_estimators" = None
      end
  | Some _ => KeyError "n_estimators" = Builtin TypeError
  end.
Proof.
  apply (bag_rebuild_failure
           (exec (lift (bag_cell [Toy.leaf_is 3])) Toy.blank).2
           (KeyError "n_estimators")).
  - intros e.
    replace (globals (exec (lift (bag_cell [Toy.leaf_is 3])) Toy.blank).2
               !! "best_params")
      with (Some (VDict (Toy.leaf_is 3))) by by_evaluation.
    discriminate.
  - by_evaluation.
Defined.

End BaggedRuns.

Section BoostedRuns.
Import PyFloat.
#[local] Existing Instance Toy.sk_overfit.

(** The grid of the notebook with a library in which every combination
    has a training accuracy of 0.80. *)
Lemma boost_cell_reports_first_maximum_witness :
  let grid := ParameterGrid boost_hyperparam_grid in
  ∃ i g s,
    boost_scored grid !! i = Some (g, s) ∧
    gt s f0_5 = true ∧
    (∀ g' s', (g', s') ∈ boost_scored grid → gt s' s = false) ∧
    (∀ j g', (j < i)%nat → boost_scored grid !! j ≠ Some (g', s)) ∧
    (run (boost_cell grid) Toy.fresh).1 = Done tt ∧
    stdout (run (boost_cell grid) Toy.fresh).2 =
      stdout Toy.fresh ++ [Print_ "OOB: %0.5f" (VFloat s);
                           Print_ "Best parameters:" (VDict g)].
Proof.
  apply (boost_cell_reports_first_maximum
           (ParameterGrid boost_hyperparam_grid) Toy.fresh).
  apply (some_score_above _ (Toy.depth_trees_rate 1 500 f0_001) f0_8);
    by_evaluation.
Defined.

Lemma boost_report_refits_winner_witness :
  let grid := ParameterGrid boost_hyperparam_grid in
  ∃ i g s depth trees rate n',
    boost_scored grid !! i = Some (g, s) ∧
    (∀ g' s', (g', s') ∈ boost_scored grid → gt s' s = false) ∧
    (∀ j g', (j < i)%nat → boost_scored grid !! j ≠ Some (g', s)) ∧
    g !! "max_depth" = Some depth ∧
    g !! "n_estimators" = Some trees ∧
    g !! "learning_rate" = Some rate ∧
    exec (lift (boost_cell grid);; boost_rebuild;; boost_results) Toy.blank
      = (Ok tt, n') ∧
    let kw := boost_final_kwargs depth trees rate in
    let e := construct GradientBoostingClassifier kw in
    dom kw = {["max_depth"; "n_estimators"; "learning_rate"; "random_state"]} ∧
    globals n' !! "boost" = Some (VEst (fit XY_all (fit XY_train e))) ∧
    performed n' =
      performed Toy.blank
      ++ Construct GradientBoostingClassifier boost_kwargs
         :: loop_calls "boost" (Score "boost" XY_train) f0_5 (boost_scored grid)
      ++ Construct GradientBoostingClassifier kw
         :: results_calls "boost" (AccuracyOn XY_train) e ∧
    page n' =
      page Toy.blank
      ++ [Shown (Print_ "OOB: %0.5f" (VFloat s));
          Shown (Print_ "Best parameters:" (VDict g))]
      ++ results_page "Boosted tree Best Model" (AccuracyOn XY_train) e.
Proof.
  apply (boost_report_refits_winner
           (ParameterGrid boost_hyperparam_grid) Toy.blank).
  - apply all_members. by_evaluation.
  - apply (some_score_above _ (Toy.depth_trees_rate 1 500 f0_001) f0_8);
      by_evaluation.
Defined.


End BoostedRuns.

Section ForestRuns.
Import PyFloat.
#[local] Existing Instance Toy.sk_low.

(** The grid of the notebook with a library in which every out-of-bag
    score is 0.30, in a kernel where nothing is bound. *)
Lemma rfc_cell_no_winner_witness :
  let r := run (rfc_cell (ParameterGrid rf_hyperparam_grid)) Toy.fresh in
  r.1 = Raise (NameError "best_rfc_score") ∧
  stdout r.2 = stdout Toy.fresh ∧
  ns r.2 !! "best_rfc_score" = None ∧
  ns r.2 !! "best_rfc_params" = ns Toy.fresh !! "best_rfc_params".
Proof.
  apply (rfc_cell_no_winner (ParameterGrid rf_hyperparam_grid) Toy.fresh).
  - apply scores_not_above. by_evaluation.
  - reflexivity.
Defined.

End ForestRuns.

Section FrameRuns.

Lemma is_cat_vars_perm {series} (X : frame (series := series)) cv cv' :
  cv ≡ₚ cv' → is_cat_vars X cv → is_cat_vars X cv'.
Proof.
  intros Hperm [Hnodup Hcv]. split.
  - by rewrite <- Hperm.
  - intros c. rewrite <- (Hcv c). by rewrite Hperm.
Qed.

(** Two categorical columns listed in the reverse of their order in the
    frame; the column [device] of the test frame is no column of [X]. *)
Lemma convert_categorical_witness :
  convert Toy.as_category ["marital"; "job"] Toy.train_frame Toy.test_frame =
  (Ok tt,
   ((λ cs, if decide (cs.1 ∈ num_vars) then cs
           else (cs.1, Toy.as_category cs.2)) <$> Toy.train_frame,
    (λ cs, if decide (cs.1 ∈ columns Toy.train_frame ∧ cs.1 ∉ num_vars)
           then (cs.1, Toy.as_category cs.2) else cs) <$> Toy.test_frame)).
Proof.
  apply (convert_categorical Toy.as_category Toy.train_frame Toy.test_frame
           ["marital"; "job"]).
  - by_evaluation.
  - by_evaluation.
  - apply (is_cat_vars_perm _ (cat_vars_in_order Toy.train_frame)).
    + apply perm_swap.
    + apply is_cat_vars_in_order.
  - apply (all_members (λ c, c ∉ num_vars → c ∈ columns Toy.test_frame)).
    by_evaluation.
Defined.

(** The test frame has no column [marital]: [X] is left with [job] and
    [marital] converted, the test frame with [job] only. *)
Lemma convert_missing_column_witness :
  convert Toy.as_category (["job"] ++ "marital" :: [])
    Toy.train_frame Toy.short_test_frame =
  (Failed (KeyError "marital"),
   ([("age", false); ("job", true); ("X4", false); ("marital", true)],
    [("job", true); ("age", false); ("device", false)])).
Proof.
  apply (convert_missing_column Toy.as_category
           Toy.train_frame Toy.short_test_frame ["job"] "marital" []).
  - by_evaluation.
  - by_evaluation.
  - apply is_cat_vars_in_order.
  - apply (all_members (λ c, c ∈ columns Toy.short_test_frame)).
    by_evaluation.
  - by_evaluation.
Defined.

End FrameRuns.

Section EstimatorRuns.

(** A search that returns a depth and a learning rate. *)
Lemma xgb_model_not_seeded_witness :
  let best_params : kwargs :=
    <["max_depth" := PInt 3]> (<["learning_rate" := PFloat PyFloat.f0_1]> ∅) in
  ∃ kw,
    xgb_model_kwargs best_params = Ok kw ∧
    (∀ k, k ≠ "random_state" → k ≠ "n_jobs" →
       kw !! k = (best_params ∪ xgb_clf_kwargs) !! k) ∧
    kw !! "random_state" = None ∧
    kw !! "n_jobs" = None ∧
    (best_params ∪ xgb_clf_kwargs) !! "random_state" = Some (PInt 391) ∧
    (best_params ∪ xgb_clf_kwargs) !! "n_jobs" = Some (PInt (-2)).
Proof.
  apply (xgb_model_not_seeded
           (<["max_depth" := PInt 3]>
              (<["learning_rate" := PFloat PyFloat.f0_1]> ∅))).
  apply keys_within. by_evaluation.
Defined.

(** Three records whose [Id] are 0, 1 and 2. *)
Lemma submission_cell_keyed_by_Id_iff_witness :
  submission_cell [1; 0; 1] = Some (keyed_by_Id [0; 1; 2] [1; 0; 1]) ↔
  [0; 1; 2] = Z.of_nat <$> seq 0 (length [1; 0; 1]).
Proof.
  apply (submission_cell_keyed_by_Id_iff [0; 1; 2] [1; 0; 1]).
  reflexivity.
Defined.

End EstimatorRuns.
